(** * AI-Bookkeeping: the statement parser, the ledger, the trial balance
      and the VAT stage of [app.py], embedded in Rocq.

    Conventions of the embedding.
    - A Python [float] and a [numpy.float64] are IEEE 754 binary64
      numbers: [spec_float] of the Standard Library at precision 53 and
      maximal exponent 1024, with the library's correctly rounded
      operations.  The two differ in [round], and the sums of pandas are
      modelled after the loops that compute them.
    - A Python [str] is a [string]; a character is a code point below 256.
    - A Python exception is a value of [exn]; a call that may raise returns
      a [result].
    - What [pdfplumber] and [pandas.read_excel] hand to the program is the
      input of the model: the extracted tables of each page, or the data
      frame of the sheet. *)

From Stdlib Require Import ZArith Lia Bool Ascii String List.
From Stdlib Require Import Floats.SpecFloat.
From stdpp Require Import base option list strings sorting.

Local Open Scope string_scope.
Local Open Scope list_scope.
Local Open Scope Z_scope.

(* ===================================================================== *)
(** * Python floats                                                       *)
(* ===================================================================== *)

Module Float.

Definition prec : Z := 53.
Definition emax : Z := 1024.

Abbreviation float := spec_float.

Definition add : float -> float -> float := SFadd prec emax.
Definition sub : float -> float -> float := SFsub prec emax.
Definition mul : float -> float -> float := SFmul prec emax.
Definition div : float -> float -> float := SFdiv prec emax.
Definition neg : float -> float := SFopp.
Definition abs : float -> float := SFabs.

(** [x == y], [x <= y] and [x != 0] of Python; every comparison with a
    NaN is false, so a NaN is "non-zero". *)
Definition eqb : float -> float -> bool := SFeqb.
Definition leb : float -> float -> bool := SFleb.
Definition ltb : float -> float -> bool := SFltb.

Definition zero : float := S754_zero false.
Definition nonzero (x : float) : bool := negb (eqb x zero).

(** The float nearest to the integer [n] ([float(n)] of a Python int in
    range). *)
Definition of_Z (n : Z) : float := binary_normalize prec emax n 0 false.

(** The float nearest to [(-1)^neg * m * 10^e], for [0 <= m]: what a
    decimal literal or [float("...")] denotes. *)
Definition of_decimal (sign : bool) (m e : Z) : float :=
  match m with
  | Zpos p =>
      if 0 <=? e then binary_round prec emax sign (p * Z.to_pos (10 ^ e)) 0
      else div (S754_finite sign p 0)
               (S754_finite false (Z.to_pos (10 ^ (- e))) 0)
  | _ => S754_zero sign
  end.

Definition neg_zero : float := S754_zero true.

Definition is_nan (x : float) : bool :=
  match x with
  | S754_nan => true
  | _ => false
  end.

(** ** The sum of a group: [group_sum] of pandas

    [groupby(...).agg("sum")] on a float64 column runs the loop of
    [group_sum] over the values of the group, in row order: [sumx] and
    [compensation] start at 0.0 ([np.zeros]); a NaN value is skipped;
    every other value takes one step of Kahan's compensated summation,
    and a compensation that became NaN (after an infinity) is reset to
    0.0.  The result is [sumx]; the last compensation is not added.  A
    group whose values are all NaN sums to 0.0, and so does a group of
    -0.0 values, since 0.0 + -0.0 is 0.0. *)
Definition group_sum_step (st : float * float) (val : float)
  : float * float :=
  let '(sumx, compensation) := st in
  if is_nan val then (sumx, compensation)
  else
    let y := sub val compensation in
    let t := add sumx y in
    let c := sub (sub t sumx) y in
    (t, if is_nan c then zero else c).

Definition group_sum (values : list float) : float :=
  fst (fold_left group_sum_step values (zero, zero)).

(** ** The sum of a column: [Series.sum] of pandas

    [Series.sum] on a float64 column replaces every NaN by 0.0 and calls
    [numpy.sum] on the array.  The add-reduction of numpy over a
    contiguous array is its pairwise summation: fewer than 8 elements
    are added from left to right, starting from -0.0; up to 128 elements
    are added into 8 accumulators, which are then added in pairs, and
    the elements after the last full block of 8 are added one by one;
    more elements are split in two parts, the first of a length that is
    a multiple of 8.  The sum of no element is 0.0, and the sum of -0.0
    values is -0.0. *)
Fixpoint unrolled8 (blocks : nat) (r a : list float)
  : list float * list float :=
  match blocks with
  | O => (r, a)
  | S k => unrolled8 k (zip_with add r (take 8 a)) (drop 8 a)
  end.

(** The branch [n <= PW_BLOCKSIZE] of [pairwise_sum], for [8 <= n]. *)
Definition sum_block (a : list float) : float :=
  let n := length a in
  let '(r, rest) := unrolled8 (n / 8 - 1)%nat (take 8 a) (drop 8 a) in
  match r with
  | [r0; r1; r2; r3; r4; r5; r6; r7] =>
      fold_left add rest
        (add (add (add r0 r1) (add r2 r3)) (add (add r4 r5) (add r6 r7)))
  | _ => zero
  end.

(** [pairwise_sum] of numpy.  The recursion halves the list, so [fuel]
    at least the length of [a] is never used up
    ([pairwise_sum_fuel]). *)
Fixpoint pairwise_sum (fuel : nat) (a : list float) : float :=
  let n := length a in
  if (n <? 8)%nat then fold_left add a neg_zero
  else if (n <=? 128)%nat then sum_block a
  else
    match fuel with
    | O => sum_block a
    | S k =>
        let n2 := (n / 2 - (n / 2) mod 8)%nat in
        add (pairwise_sum k (take n2 a)) (pairwise_sum k (drop n2 a))
    end.

Definition series_sum (values : list float) : float :=
  match values with
  | [] => zero
  | _ =>
      let a := map (fun x => if is_nan x then zero else x) values in
      pairwise_sum (length a) a
  end.

(** Round-half-even of the rational [n / 2^k] to an integer. *)
Definition rne_shift (n : Z) (k : Z) : Z :=
  let d := 2 ^ k in
  let q := n / d in
  let r := n mod d in
  match 2 * r ?= d with
  | Lt => q
  | Gt => q + 1
  | Eq => if Z.even q then q else q + 1
  end.

(** [round(x, 2)] of Python on a float: the exact value of [x] is rounded
    half-even to two decimals, and the float nearest to that decimal is
    returned.  NaN, the infinities and the zeros round to themselves. *)
Definition round2 (x : float) : float :=
  match x with
  | S754_finite s m e =>
      if 0 <=? e then x
      else
        match rne_shift (Zpos m * 100) (- e) with
        | Zpos n => div (S754_finite s n 0) (S754_finite false 100 0)
        | _ => S754_zero s
        end
  | _ => x
  end.

(** [numpy.rint]: the nearest integer, ties to even, as a float. *)
Definition rint (x : float) : float :=
  match x with
  | S754_finite s m e =>
      if 0 <=? e then x
      else
        match rne_shift (Zpos m) (- e) with
        | Zpos n => binary_round prec emax s n 0
        | _ => S754_zero s
        end
  | _ => x
  end.

(** [round(x, 2)] of Python on a [numpy.float64]: numpy multiplies by
    100.0, rounds to the nearest integer and divides by 100.0; each of
    the three steps rounds to a float. *)
Definition np_round2 (x : float) : float :=
  div (rint (mul x (of_Z 100))) (of_Z 100).

(** ** Exact values

    A finite float is an integer multiple of [2^emin], the smallest
    positive float. *)
Definition emin : Z := 3 - emax - prec.

(** [x] is a zero or a finite number in the format. *)
Definition is_finite (x : float) : bool :=
  match x with
  | S754_zero _ => true
  | S754_finite _ m e => bounded prec emax m e
  | _ => false
  end.

(** The exact value of a finite [x], in units of [2^emin]. *)
Definition scaled (x : float) : Z :=
  match x with
  | S754_finite s m e => (if s then -1 else 1) * (Zpos m * 2 ^ (e - emin))
  | _ => 0
  end.

End Float.

Abbreviation float := spec_float.

(* ===================================================================== *)
(** * Exceptions and results                                              *)
(* ===================================================================== *)

Inductive exn : Type :=
  | ValueError (msg : string)
  | AttributeError (msg : string)
  | IndexError (msg : string)
  | KeyError (key : string)
  | OtherError (msg : string).

Inductive result (A : Type) : Type :=
  | Ok (a : A)
  | Raise (e : exn).
Arguments Ok {A} a.
Arguments Raise {A} e.

Definition bind {A B} (r : result A) (k : A -> result B) : result B :=
  match r with
  | Ok a => k a
  | Raise e => Raise e
  end.

Notation "x <- r ;; k" := (bind r (fun x => k))
  (at level 100, r at next level, right associativity).

(* ===================================================================== *)
(** * Python strings                                                      *)
(* ===================================================================== *)

Module Str.

Definition code (c : ascii) : N := N_of_ascii c.

(** [str.isspace] on one character below 256. *)
Definition isspace (c : ascii) : bool :=
  let n := code c in
  ((9 <=? n) && (n <=? 13) || (28 <=? n) && (n <=? 32)
   || (n =? 133) || (n =? 160))%N.

Definition isdigit (c : ascii) : bool :=
  let n := code c in ((48 <=? n) && (n <=? 57))%N.

Definition digit_val (c : ascii) : Z := Z.of_N (code c) - 48.

(** ASCII lower-casing, as [re.IGNORECASE] and [str.lower] do on
    characters below 128. *)
Definition lower_char (c : ascii) : ascii :=
  let n := code c in
  if ((65 <=? n) && (n <=? 90))%N then ascii_of_N (n + 32) else c.

Fixpoint lower (s : string) : string :=
  match s with
  | EmptyString => EmptyString
  | String c s' => String (lower_char c) (lower s')
  end.

Fixpoint startswith (s p : string) {struct p} : bool :=
  match p, s with
  | EmptyString, _ => true
  | String a p', String b s' => Ascii.eqb a b && startswith s' p'
  | String _ _, EmptyString => false
  end.

(** [s.replace(old, new)] for a non-empty [old]: the occurrences of [old]
    are found from left to right and do not overlap.  [skip] counts the
    characters of a found occurrence that are still to be passed over. *)
Fixpoint replace_go (old new : string) (skip : nat) (s : string) : string :=
  match s with
  | EmptyString => EmptyString
  | String c s' =>
      match skip with
      | S k => replace_go old new k s'
      | O =>
          if startswith s old
          then String.append new (replace_go old new (String.length old - 1)%nat s')
          else String c (replace_go old new 0 s')
      end
  end.

Definition replace (s old new : string) : string := replace_go old new 0 s.

(** The string without its leading, its trailing characters that [sp]
    holds of. *)
Fixpoint lstrip_with (sp : ascii -> bool) (s : string) : string :=
  match s with
  | String c s' => if sp c then lstrip_with sp s' else s
  | EmptyString => EmptyString
  end.

Fixpoint rstrip_with (sp : ascii -> bool) (s : string) : string :=
  match s with
  | EmptyString => EmptyString
  | String c s' =>
      match rstrip_with sp s' with
      | EmptyString => if sp c then EmptyString else String c EmptyString
      | t => String c t
      end
  end.

Definition strip_with (sp : ascii -> bool) (s : string) : string :=
  rstrip_with sp (lstrip_with sp s).

(** [s.strip()] *)
Definition strip (s : string) : string := strip_with isspace s.

(** The longest prefix of digits and what follows it. *)
Fixpoint span_digits (s : string) : string * string :=
  match s with
  | String c s' =>
      if isdigit c
      then let '(d, r) := span_digits s' in (String c d, r)
      else (EmptyString, s)
  | EmptyString => (EmptyString, EmptyString)
  end.

(** The number a string of digits denotes, most significant first. *)
Fixpoint digits_val_acc (acc : Z) (s : string) : Z :=
  match s with
  | EmptyString => acc
  | String c s' => digits_val_acc (10 * acc + digit_val c) s'
  end.
Definition digits_val (s : string) : Z := digits_val_acc 0 s.

Fixpoint all_digits (s : string) : bool :=
  match s with
  | EmptyString => true
  | String c s' => isdigit c && all_digits s'
  end.

(** [s] without the occurrences of the character [c]. *)
Fixpoint remove_char (c : ascii) (s : string) : string :=
  match s with
  | EmptyString => EmptyString
  | String b s' =>
      if Ascii.eqb c b then remove_char c s' else String b (remove_char c s')
  end.

Fixpoint has_char (c : ascii) (s : string) : bool :=
  match s with
  | EmptyString => false
  | String b s' => Ascii.eqb c b || has_char c s'
  end.

(** [sub in s] *)
Fixpoint contains (s sub : string) : bool :=
  startswith s sub ||
  match s with
  | EmptyString => false
  | String _ s' => contains s' sub
  end.

End Str.

(* ===================================================================== *)
(** * [float(s)] on a string                                              *)
(* ===================================================================== *)

Module PyFloat.
Import Str.

Definition underscore : ascii := "_"%char.

(** The blanks [float] strips at both ends: the ASCII ones of C, and the
    characters above 127 that are spaces (they are read as a blank).  The
    separators 28 to 31, which [str.strip] removes, are not among them. *)
Definition isspace (c : ascii) : bool :=
  let n := code c in
  ((9 <=? n) && (n <=? 13) || (n =? 32) || (n =? 133) || (n =? 160))%N.

(** Underscores are allowed only between two digits; they are dropped
    before the number is read.  [prev] is the previous character. *)
Fixpoint drop_underscores (prev : ascii) (s : string) : option string :=
  match s with
  | EmptyString =>
      if Ascii.eqb prev underscore then None else Some EmptyString
  | String c s' =>
      if Ascii.eqb c underscore then
        if isdigit prev then drop_underscores c s' else None
      else if Ascii.eqb prev underscore && negb (isdigit c) then None
      else option_map (String c) (drop_underscores c s')
  end.

Definition parse_sign (s : string) : bool * string :=
  match s with
  | String "-" r => (true, r)
  | String "+" r => (false, r)
  | _ => (false, s)
  end.

Definition is_exp_marker (c : ascii) : bool :=
  Ascii.eqb c "e" || Ascii.eqb c "E".

(** The exponent part: empty, or [e], an optional sign and at least one
    digit, up to the end of the string. *)
Definition parse_exponent (s : string) : option Z :=
  match s with
  | EmptyString => Some 0
  | String c r =>
      if is_exp_marker c then
        let '(esign, ds) := parse_sign r in
        match ds with
        | EmptyString => None
        | _ =>
            if all_digits ds
            then Some (if esign then - digits_val ds else digits_val ds)
            else None
        end
      else None
  end.

(** A sign, then [inf], [infinity] or [nan] in any case, or digits with
    an optional point and an optional exponent; at least one digit in
    the mantissa, and nothing left over. *)
Definition parse_number (s : string) : option float :=
  let '(sign, r) := parse_sign s in
  let lr := lower r in
  if String.eqb lr "inf" || String.eqb lr "infinity"
  then Some (S754_infinity sign)
  else if String.eqb lr "nan" then Some S754_nan
  else
    let '(ip, r1) := span_digits r in
    let '(fp, r2) :=
      match r1 with
      | String "." t => span_digits t
      | _ => (EmptyString, r1)
      end in
    let mant := String.append ip fp in
    match mant with
    | EmptyString => None
    | _ =>
        match parse_exponent r2 with
        | Some e =>
            Some (Float.of_decimal sign (digits_val mant)
                    (e - Z.of_nat (String.length fp)))
        | None => None
        end
    end.

(** [float(s)]; [None] stands for the [ValueError] it raises. *)
Definition float_of_string (s : string) : option float :=
  match drop_underscores "000"%char s with
  | Some t => parse_number (strip_with isspace t)
  | None => None
  end.

End PyFloat.

(* ===================================================================== *)
(** * [datetime.strptime(s, "%d/%m/%Y")]                                  *)
(* ===================================================================== *)

Record datetime : Type := mk_datetime { year : Z; month : Z; day : Z }.

Module Strptime.
Import Str.

Definition is_leap (y : Z) : bool :=
  (y mod 4 =? 0) && (negb (y mod 100 =? 0) || (y mod 400 =? 0)).

Definition days_in_month (y m : Z) : Z :=
  if (m =? 2) then (if is_leap y then 29 else 28)
  else if (m =? 4) || (m =? 6) || (m =? 9) || (m =? 11) then 30
  else 31.

(** The text before the first [/] and the text after it. *)
Fixpoint split_slash (s : string) : option (string * string) :=
  match s with
  | EmptyString => None
  | String c s' =>
      if Ascii.eqb c "/" then Some (EmptyString, s')
      else match split_slash s' with
           | Some (a, b) => Some (String c a, b)
           | None => None
           end
  end.

Definition in_range (c lo hi : ascii) : bool :=
  ((code lo <=? code c) && (code c <=? code hi))%N.

(** [%d]: 3[0-1] | [1-2]\d | 0[1-9] | [1-9] | space [1-9] *)
Definition directive_d (t : string) : option Z :=
  match t with
  | String a (String b EmptyString) =>
      if Ascii.eqb a "3" && in_range b "0" "1"
         || in_range a "1" "2" && isdigit b
         || Ascii.eqb a "0" && in_range b "1" "9"
      then Some (digits_val t)
      else if Ascii.eqb a " " && in_range b "1" "9"
      then Some (digit_val b)
      else None
  | String a EmptyString =>
      if in_range a "1" "9" then Some (digit_val a) else None
  | _ => None
  end.

(** [%m]: 1[0-2] | 0[1-9] | [1-9] *)
Definition directive_m (t : string) : option Z :=
  match t with
  | String a (String b EmptyString) =>
      if Ascii.eqb a "1" && in_range b "0" "2"
         || Ascii.eqb a "0" && in_range b "1" "9"
      then Some (digits_val t)
      else None
  | String a EmptyString =>
      if in_range a "1" "9" then Some (digit_val a) else None
  | _ => None
  end.

(** [%Y]: exactly four digits, and the end of the string. *)
Definition directive_Y (t : string) : option Z :=
  if (String.length t =? 4)%nat && all_digits t
  then Some (digits_val t) else None.

(** [None] stands for the [ValueError] of a string that does not match
    the format or names no day of the calendar (years 1 to 9999). *)
Definition strptime (s : string) : option datetime :=
  match split_slash s with
  | Some (td, r) =>
      match split_slash r with
      | Some (tm, ty) =>
          match directive_d td, directive_m tm, directive_Y ty with
          | Some d, Some m, Some y =>
              if (1 <=? y) && (d <=? days_in_month y m)
              then Some (mk_datetime y m d)
              else None
          | _, _, _ => None
          end
      | None => None
      end
  | None => None
  end.

End Strptime.

(* ===================================================================== *)
(** * [parse_bank_statement]                                              *)
(* ===================================================================== *)

(** A cell of an extracted PDF table: a text, or [None] where the table has
    no cell. *)
Definition cell : Type := option string.
Definition row : Type := list cell.
Definition table : Type := list row.

(** A cell of a data frame, or a column label of a sheet. *)
Inductive value : Type :=
  | VNone
  | VStr (s : string)
  | VFloat (x : float)
  | VDate (d : datetime)
  | VInt (n : Z).

Definition value_of_cell (c : cell) : value :=
  match c with
  | Some s => VStr s
  | None => VNone
  end.

(** A data frame whose column labels are texts: the labels, and the
    rows, each with one cell per column. *)
Record DataFrame : Type := mk_DataFrame {
  columns : list string;
  data : list (list value)
}.

(** The frame before line 54, as [pd.read_excel] or
    [pd.DataFrame(records)] builds it: a label is the content of a
    header cell, which for a sheet can be a number or a date as well as
    a text. *)
Record RawFrame : Type := mk_RawFrame {
  raw_columns : list value;
  raw_data : list (list value)
}.

(** One element of [records]: the dict with keys Date, Description and
    Amount. *)
Record record : Type := mk_record {
  Date : datetime;
  Description : cell;
  Amount : float
}.

(** The uploaded file: its name, and what the two readers make of its
    content: [page.extract_table()] for each page, [pd.read_excel]. *)
Record UploadedFile : Type := mk_UploadedFile {
  name : string;
  pages : list (option table);
  sheet : RawFrame
}.

Definition schema_error : exn :=
  ValueError "Statement must have Date, Description, Amount columns.".

Definition number_format_error : exn :=
  ValueError "could not convert string to float".

(** [to_num], lines 42-45. *)
Definition to_num (x : cell) : result float :=
  match x with
  | None => Ok Float.zero
  | Some EmptyString => Ok Float.zero
  | Some s =>
      let cleaned :=
        Str.replace (Str.replace (Str.replace (Str.replace s " " "") "," "")
                       "R" "") "ZAR" "" in
      match PyFloat.float_of_string cleaned with
      | Some v => Ok v
      | None => Raise number_format_error
      end
  end.

(** The body of [for row in table[1:]], lines 34-49. *)
Definition pdf_row (headers r : row) (records : list record)
  : result (list record) :=
  if decide (r = headers) then Ok records
  else
    match r !! 0%nat with
    | None => Raise (IndexError "list index out of range")
    | Some None =>
        Raise (AttributeError "'NoneType' object has no attribute 'strip'")
    | Some (Some c) =>
        let date_str := Str.strip c in
        match Strptime.strptime date_str with
        | None => Ok records
        | Some dt =>
            let desc := if (2 <? length r)%nat
                        then default None (r !! 2%nat) else Some "" in
            money_in <- (if (3 <? length r)%nat
                         then to_num (default None (r !! 3%nat))
                         else Ok Float.zero) ;;
            money_out <- (if (4 <? length r)%nat
                          then to_num (default None (r !! 4%nat))
                          else Ok Float.zero) ;;
            let amt := Float.sub money_in money_out in
            Ok (records ++ [mk_record dt desc amt])
        end
    end.

Fixpoint pdf_rows (headers : row) (rows : list row) (records : list record)
  : result (list record) :=
  match rows with
  | [] => Ok records
  | r :: rows' =>
      records' <- pdf_row headers r records ;;
      pdf_rows headers rows' records'
  end.

(** The body of [for page in pdf.pages], lines 29-49. *)
Definition pdf_page (t : option table) (records : list record)
  : result (list record) :=
  match t with
  | None => Ok records
  | Some [] => Ok records
  | Some (headers :: rows) => pdf_rows headers rows records
  end.

Fixpoint pdf_pages (ps : list (option table)) (records : list record)
  : result (list record) :=
  match ps with
  | [] => Ok records
  | t :: ps' =>
      records' <- pdf_page t records ;;
      pdf_pages ps' records'
  end.

(** [pd.DataFrame(records)]: the columns are the keys of the dicts; no
    dict, no column. *)
Definition DataFrame_of_records (records : list record) : RawFrame :=
  match records with
  | [] => mk_RawFrame [] []
  | _ =>
      mk_RawFrame [VStr "Date"; VStr "Description"; VStr "Amount"]
        (map (fun r => [VDate (Date r); value_of_cell (Description r);
                        VFloat (Amount r)]) records)
  end.

(** [c.strip()] on a column label: a method of texts only. *)
Definition type_name (c : value) : string :=
  match c with
  | VNone => "NoneType"
  | VStr _ => "str"
  | VFloat _ => "float"
  | VDate _ => "datetime.datetime"
  | VInt _ => "int"
  end.

Definition no_strip_error (c : value) : exn :=
  AttributeError
    (String.append "'"
       (String.append (type_name c) "' object has no attribute 'strip'")).

Definition strip_label (c : value) : result string :=
  match c with
  | VStr s => Ok (Str.strip s)
  | _ => Raise (no_strip_error c)
  end.

(** The renaming of line 54 calls the function on the labels from left
    to right; the first label that is no text raises. *)
Fixpoint strip_labels (cs : list value) : result (list string) :=
  match cs with
  | [] => Ok []
  | c :: cs' =>
      s <- strip_label c ;;
      ss <- strip_labels cs' ;;
      Ok (s :: ss)
  end.

(** The first label that is no text, if there is one. *)
Fixpoint first_non_text (cs : list value) : option value :=
  match cs with
  | [] => None
  | VStr _ :: cs' => first_non_text cs'
  | c :: _ => Some c
  end.

(** The text of a label that is one. *)
Definition label_text (c : value) : string :=
  match c with
  | VStr s => s
  | _ => EmptyString
  end.

(** The positions of the columns labelled [key], from left to right;
    [i] is the position of the first column of [cols]. *)
Fixpoint positions_from (i : nat) (cols : list string) (key : string)
  : list nat :=
  match cols with
  | [] => []
  | c :: cols' =>
      if decide (c = key) then i :: positions_from (S i) cols' key
      else positions_from (S i) cols' key
  end.

Definition label_positions (cols : list string) (key : string) : list nat :=
  positions_from 0 cols key.

(** [df[keys]] on a frame whose labels can repeat: for each key in turn,
    every column with that label. *)
Definition select_columns (keys : list string) (cols : list string)
    (rows : list (list value)) : DataFrame :=
  let indexer := concat (map (label_positions cols) keys) in
  mk_DataFrame
    (map (fun i => default EmptyString (cols !! i)) indexer)
    (map (fun r => map (fun i => default VNone (r !! i)) indexer) rows).

(** What [pd.to_datetime] raises on a frame whose labels repeat, which
    is what [df["Date"]] is when two columns are labelled Date. *)
Definition duplicate_keys_error : exn :=
  ValueError "cannot assemble with duplicate keys".

Definition is_pdf (file_name : string) : bool :=
  let l := Str.lower file_name in
  let n := String.length l in
  String.eqb (String.substring (n - 4) 4 l) ".pdf".

Section Parser.

(** [pd.to_datetime(column, dayfirst=True)], which may raise. *)
Variable to_datetime : list value -> result (list value).

(** Lines 54-59.  The labels are stripped before the columns are
    counted.  The first three columns are renamed, the later ones keep
    their stripped labels, so that a later column can be labelled Date,
    Description or Amount as well: a second Date makes [pd.to_datetime]
    raise, and a second Description or Amount is selected with the
    first by line 59. *)
Definition canonical_frame (df : RawFrame) : result DataFrame :=
  cols <- strip_labels (raw_columns df) ;;
  if (length cols <? 3)%nat then Raise schema_error
  else
    let later := drop 3 cols in
    let cols := ["Date"; "Description"; "Amount"] ++ later in
    if decide ("Date" ∈ later) then Raise duplicate_keys_error
    else
      dates <- to_datetime
                 (map (fun r => default VNone (r !! 0%nat)) (raw_data df)) ;;
      let rows := zip_with (fun d r => d :: drop 1 r) dates (raw_data df) in
      Ok (select_columns ["Date"; "Description"; "Amount"] cols rows).

Definition parse_bank_statement (uploaded_file : UploadedFile)
  : result DataFrame :=
  df <- (if is_pdf (name uploaded_file)
         then records <- pdf_pages (pages uploaded_file) [] ;;
              Ok (DataFrame_of_records records)
         else Ok (sheet uploaded_file)) ;;
  canonical_frame df.

End Parser.

(* ===================================================================== *)
(** * The ledger and the trial balance                                    *)
(* ===================================================================== *)

(** The numbers of the Debit, Credit and Amount columns, with the
    operations the program uses on them.  [num_sum] is the sum of the
    values of a group, the aggregation "sum" of [groupby]. *)
Class Arith (num : Type) : Type := {
  num_zero : num;
  num_add : num -> num -> num;
  num_sub : num -> num -> num;
  num_neg : num -> num;
  num_ge0 : num -> bool;
  num_sum : list num -> num
}.

(** The program runs on binary64 floats: the amounts of the PDF path
    are floats, and the default of [debit] and [credit] is 0.0, so the
    Debit and Credit columns of the ledger frame are float64 columns. *)
#[export] Instance float_Arith : Arith float := {
  num_zero := Float.zero;
  num_add := Float.add;
  num_sub := Float.sub;
  num_neg := Float.neg;
  num_ge0 := fun x => Float.leb Float.zero x;
  num_sum := Float.group_sum
}.

Record LedgerEntry (num : Type) : Type := mk_LedgerEntry {
  le_Date : datetime;
  le_Account : string;
  le_Debit : num;
  le_Credit : num;
  le_Narrative : cell
}.
Arguments mk_LedgerEntry {num}.
Arguments le_Date {num}.
Arguments le_Account {num}.
Arguments le_Debit {num}.
Arguments le_Credit {num}.
Arguments le_Narrative {num}.

Record Ledger (num : Type) : Type := mk_Ledger {
  entries : list (LedgerEntry num)
}.
Arguments mk_Ledger {num}.
Arguments entries {num}.

(** A row of the classified frame: Date, Description, Amount and
    GL Account. *)
Record LabeledTransaction (num : Type) : Type := mk_LabeledTransaction {
  lt_Date : datetime;
  lt_Description : cell;
  lt_Amount : num;
  lt_GL_Account : string
}.
Arguments mk_LabeledTransaction {num}.
Arguments lt_Date {num}.
Arguments lt_Description {num}.
Arguments lt_Amount {num}.
Arguments lt_GL_Account {num}.

Record TrialBalanceRow (num : Type) : Type := mk_TrialBalanceRow {
  tb_Account : string;
  tb_Debit : num;
  tb_Credit : num;
  tb_Balance : num
}.
Arguments mk_TrialBalanceRow {num}.
Arguments tb_Account {num}.
Arguments tb_Debit {num}.
Arguments tb_Credit {num}.
Arguments tb_Balance {num}.

Section Ledger.
Context {num : Type} `{Arith num}.

(** [Ledger()] *)
Definition new_ledger : Ledger num := mk_Ledger [].

(** [Ledger.post]: appends one entry. *)
Definition post (self : Ledger num) (date : datetime) (account : string)
    (debit credit : num) (narrative : cell) : Ledger num :=
  mk_Ledger (entries self ++ [mk_LedgerEntry date account debit credit narrative]).

(** [Ledger.to_dataframe]: the entries, one row each, in list order. *)
Definition to_dataframe (self : Ledger num) : list (LedgerEntry num) :=
  entries self.

(** The body of the posting loop of [main], lines 116-120. *)
Definition post_row (ledger : Ledger num) (r : LabeledTransaction num)
  : Ledger num :=
  let amt := lt_Amount r in
  if num_ge0 amt
  then post ledger (lt_Date r) (lt_GL_Account r) amt num_zero
            (lt_Description r)
  else post ledger (lt_Date r) (lt_GL_Account r) num_zero (num_neg amt)
            (lt_Description r).

(** The entry that [post_row] appends for the row [r]. *)
Definition posting_of (r : LabeledTransaction num) : LedgerEntry num :=
  let amt := lt_Amount r in
  if num_ge0 amt
  then mk_LedgerEntry (lt_Date r) (lt_GL_Account r) amt num_zero
         (lt_Description r)
  else mk_LedgerEntry (lt_Date r) (lt_GL_Account r) num_zero (num_neg amt)
         (lt_Description r).

(** Lines 114-120: a new ledger, and one posting per row. *)
Definition post_rows (df : list (LabeledTransaction num)) : Ledger num :=
  fold_left post_row df new_ledger.

(** The rows of one group of [groupby("Account")]. *)
Definition group (df : list (LedgerEntry num)) (account : string)
  : list (LedgerEntry num) :=
  filter (fun e => le_Account e = account) df.

(** The keys of [groupby("Account")]: every account once, sorted. *)
Definition group_keys (df : list (LedgerEntry num)) : list string :=
  merge_sort String.le (remove_dups (map le_Account df)).

Definition trial_balance_row (df : list (LedgerEntry num))
    (account : string) : TrialBalanceRow num :=
  let g := group df account in
  let debit := num_sum (map le_Debit g) in
  let credit := num_sum (map le_Credit g) in
  mk_TrialBalanceRow account debit credit (num_sub debit credit).

(** [trial_balance], lines 86-90.  The frame of a ledger without entries
    has no column, and [groupby("Account")] raises. *)
Definition trial_balance (ledger : Ledger num)
  : result (list (TrialBalanceRow num)) :=
  let df := to_dataframe ledger in
  match df with
  | [] => Raise (KeyError "Account")
  | _ => Ok (map (trial_balance_row df) (group_keys df))
  end.

End Ledger.

(** ** Sums without rounding

    The sum of integers. *)
Definition Zsum (l : list Z) : Z := fold_right Z.add 0 l.

(** The float [s] is the exact sum of the floats [terms]: [s] is finite,
    and its value is the sum of the values of the terms, which are
    finite or NaN; a NaN, which the sums of pandas skip, counts for
    nothing. *)
Definition exact_sum (terms : list float) (s : float) : bool :=
  forallb (fun x => Float.is_finite x || Float.is_nan x) terms
  && Float.is_finite s
  && (Float.scaled s =? Zsum (map Float.scaled terms)).

(** The float [d] is the exact difference of [a] and [b]. *)
Definition exact_sub (a b d : float) : bool :=
  Float.is_finite a && Float.is_finite b && Float.is_finite d
  && (Float.scaled d =? Float.scaled a - Float.scaled b).

(** No sum and no difference of the trial balance of [ledger] is
    rounded: the Debit and the Credit of every row are the exact sums of
    the values of the group, and the Balance is their exact
    difference. *)
Definition rows_exact (ledger : Ledger float) : bool :=
  let df := to_dataframe ledger in
  forallb
    (fun r =>
       exact_sum (map le_Debit (group df (tb_Account r))) (tb_Debit r)
       && exact_sum (map le_Credit (group df (tb_Account r))) (tb_Credit r)
       && exact_sub (tb_Debit r) (tb_Credit r) (tb_Balance r))
    (map (trial_balance_row df) (group_keys df)).

(* ===================================================================== *)
(** * VAT                                                                 *)
(* ===================================================================== *)

Definition VAT_RATE : float := Float.of_decimal false 15 (-2).

(** [calculate_vat], lines 17-18, on a Python float. *)
Definition calculate_vat (amount : float) : float :=
  Float.round2
    (Float.div (Float.mul amount VAT_RATE)
               (Float.add (Float.of_Z 1) VAT_RATE)).

(** [calculate_vat] on a [numpy.float64], which is what [Series.sum]
    returns: the product and the quotient are the same binary64
    operations, and [round] is numpy's. *)
Definition calculate_vat_float64 (amount : float) : float :=
  Float.np_round2
    (Float.div (Float.mul amount VAT_RATE)
               (Float.add (Float.of_Z 1) VAT_RATE)).

(** [Series.str.contains("a|b", case=False)] on one account name: one of
    the alternatives occurs in it, letter case ignored. *)
Definition str_contains (alternatives : list string) (account : string)
  : bool :=
  existsb (fun p => Str.contains (Str.lower account) (Str.lower p))
          alternatives.


Record VATResult : Type := mk_VATResult {
  vat_out : float;
  vat_in : float;
  net_vat_due : float
}.

Section VatStage.

(** [Series.sum] of pandas on the Balance column: [Float.series_sum]
    in the program. *)
Variable series_sum : list float -> float.

(** Lines 141-147.  The two sums are [numpy.float64] numbers. *)
Definition vat_stage (tb : list (TrialBalanceRow float)) : VATResult :=
  let sales :=
    series_sum
      (map tb_Balance
         (List.filter (fun r => str_contains ["Sales"; "Revenue"] (tb_Account r)) tb)) in
  let purchases :=
    series_sum
      (map tb_Balance
         (List.filter (fun r => str_contains ["Expenses"; "Purchases"] (tb_Account r)) tb)) in
  let vat_out := calculate_vat_float64 sales in
  let vat_in := calculate_vat_float64 purchases in
  mk_VATResult vat_out vat_in (Float.sub vat_out vat_in).

End VatStage.

(* ===================================================================== *)
(** * [classify_transactions]                                             *)
(* ===================================================================== *)

Section Classifier.

(** What lines 64-71 obtain for the row [r] at the call number [n]: the
    content of the first choice of the answer to the prompt built from
    [r]; [Raise] when the prompt, the call or the answer raises. *)
Variable chat : nat -> list value -> result string.

(** The loop of lines 63-71: one call per row, in row order; the stripped
    answer is appended to [gl_accounts]. *)
Fixpoint classify_rows (n : nat) (rows : list (list value))
    (gl_accounts : list string) : result (list string) :=
  match rows with
  | [] => Ok gl_accounts
  | r :: rows' =>
      content <- chat n r ;;
      classify_rows (S n) rows' (gl_accounts ++ [Str.strip content])
  end.

(** [classify_transactions], lines 61-73, on a frame that has no column
    GL Account yet, as the parsed frame: the labels become its last
    column. *)
Definition classify_transactions (df : DataFrame) : result DataFrame :=
  gl_accounts <- classify_rows 0 (data df) [] ;;
  Ok (mk_DataFrame (columns df ++ ["GL Account"])
        (zip_with (fun r a => r ++ [VStr a]) (data df) gl_accounts)).

End Classifier.

(** A day of the calendar, in the years 1 to 9999. *)
Definition valid_date (d : datetime) : bool :=
  (1 <=? year d) && (year d <=? 9999)
  && (1 <=? month d) && (month d <=? 12)
  && (1 <=? day d) && (day d <=? Strptime.days_in_month (year d) (month d)).

(** The token [to_num] hands to [float]. *)
Definition cleaned_of (s : string) : string :=
  Str.remove_char "R" (Str.remove_char "," (Str.remove_char " " s)).

(* ===================================================================== *)
(** * Sample inputs                                                       *)
(* ===================================================================== *)

Module Sample.

Definition jan5 : datetime := mk_datetime 2024 1 5.
Definition jan6 : datetime := mk_datetime 2024 1 6.

(** The scenario of two transactions: a sale of 1000 and a rent of 500. *)
Definition labeled : list (LabeledTransaction float) :=
  [mk_LabeledTransaction jan5 (Some "Sale A") (Float.of_Z 1000) "Sales";
   mk_LabeledTransaction jan6 (Some "Rent") (Float.of_Z (-500)) "Expenses"].

(** A ledger of four entries on three accounts. *)
Definition ledger_books : Ledger float :=
  mk_Ledger
    [mk_LedgerEntry jan5 "Sales" (Float.of_Z 1000) Float.zero (Some "Sale A");
     mk_LedgerEntry jan6 "Expenses" Float.zero (Float.of_Z 500) (Some "Rent");
     mk_LedgerEntry jan6 "Sales" (Float.of_decimal false 255 (-1)) Float.zero
       (Some "Sale B");
     mk_LedgerEntry jan6 "sales" Float.zero (Float.of_decimal false 125 (-2))
       (Some "Refund")].

(** A ledger whose float sums round: 1e16 + 1 is not a float. *)
Definition ledger_rounding : Ledger float :=
  mk_Ledger
    [mk_LedgerEntry jan5 "A" (Float.of_Z (10 ^ 16)) Float.zero (Some "in");
     mk_LedgerEntry jan5 "A" Float.zero (Float.of_Z (10 ^ 16)) (Some "out");
     mk_LedgerEntry jan6 "B" (Float.of_Z 1) Float.zero (Some "fee")].

Definition headers : row :=
  [Some "Date"; Some "Ref"; Some "Description"; Some "Money In"; Some "Money Out"].

Definition row_sale : row :=
  [Some "05/01/2024"; Some "001"; Some "Sale A"; Some "R 1,000.00"; Some ""].

Definition row_rent : row :=
  [Some " 6/1/2024 "; None; Some "Rent"; None; Some "500"].

(** A row whose date is no date, and whose amounts are no numbers. *)
Definition row_bad_date : row :=
  [Some "2024-01-05"; Some ""; Some "Balance brought forward"; Some "n/a"; None].

Definition row_empty_date : row :=
  [Some ""; Some ""; Some "continued"; Some ""; Some ""].

(** A row whose date cell is missing. *)
Definition row_missing_date : row :=
  [None; Some ""; Some "Sale A"; Some "R 1,000.00"; Some ""].

Definition no_sheet : RawFrame := mk_RawFrame [] [].

Definition statement (rows : list row) : UploadedFile :=
  mk_UploadedFile "statement.pdf" [Some (headers :: rows); None] no_sheet.

(** A PDF without any table. *)
Definition statement_no_table : UploadedFile :=
  mk_UploadedFile "scan.PDF" [None; Some []] no_sheet.

(** A sheet with the two columns Date and Amount. *)
Definition sheet_two_columns : UploadedFile :=
  mk_UploadedFile "statement.xlsx" []
    (mk_RawFrame [VStr " Date"; VStr "Amount "]
       [[VStr "05/01/2024"; VFloat (Float.of_Z 1000)]]).

(** A sheet with two columns whose first header cell is the number 2024. *)
Definition sheet_year_header : UploadedFile :=
  mk_UploadedFile "statement.xlsx" []
    (mk_RawFrame [VInt 2024; VStr "Amount"]
       [[VStr "05/01"; VFloat (Float.of_Z 1000)]]).

(** A [pd.to_datetime] that leaves the column as it is. *)
Definition keep_dates (column : list value) : result (list value) :=
  Ok column.

End Sample.

(* ===================================================================== *)
(** * Properties of the amount normalizer                                 *)
(* ===================================================================== *)

Section StrFacts.
Import Str.

Lemma replace_one_char (c : ascii) (s : string) :
  replace s (String c EmptyString) EmptyString = remove_char c s.
Proof.
  unfold replace. induction s as [|b s IH]; simpl; [reflexivity|].
  rewrite Ascii.eqb_sym.
  destruct (Ascii.eqb b c); simpl; rewrite IH; reflexivity.
Qed.

Lemma has_char_remove_char (c : ascii) (s : string) :
  has_char c (remove_char c s) = false.
Proof.
  induction s as [|b s IH]; simpl; [reflexivity|].
  destruct (Ascii.eqb c b) eqn:E; simpl; [exact IH|].
  rewrite E. exact IH.
Qed.

Lemma startswith_ZAR_has_R (s : string) :
  startswith s "ZAR" = true -> has_char "R" s = true.
Proof.
  destruct s as [|a [|b [|c s]]]; simpl; try discriminate;
    rewrite ?andb_false_r; try discriminate.
  intros H. apply andb_prop in H as [_ H]. apply andb_prop in H as [_ H].
  apply andb_prop in H as [H _].
  rewrite H. rewrite !orb_true_r. reflexivity.
Qed.

(** Once every [R] is gone, there is no [ZAR] left to remove. *)
Lemma replace_ZAR_without_R (s : string) :
  has_char "R" s = false -> replace s "ZAR" "" = s.
Proof.
  unfold replace. induction s as [|b s IH]; intros H; [reflexivity|].
  cbn [replace_go].
  destruct (startswith (String b s) "ZAR") eqn:E.
  - apply startswith_ZAR_has_R in E. congruence.
  - simpl in H. apply orb_false_elim in H as [_ H].
    rewrite (IH H). reflexivity.
Qed.

(** What [to_num] hands to [float]: the token without its blanks, commas
    and letters [R]. *)
Lemma cleaned_token (s : string) :
  replace (replace (replace (replace s " " "") "," "") "R" "") "ZAR" ""
  = remove_char "R" (remove_char "," (remove_char " " s)).
Proof.
  rewrite !replace_one_char.
  apply replace_ZAR_without_R, has_char_remove_char.
Qed.

Lemma rstrip_keeps_head (sp : ascii -> bool) (c : ascii) (s : string) :
  sp c = false -> exists u, rstrip_with sp (String c s) = String c u.
Proof.
  intros H. simpl. destruct (rstrip_with sp s); [rewrite H|]; eauto.
Qed.

End StrFacts.

Lemma float_of_string_ZA (t : string) :
  PyFloat.float_of_string (String "Z" (String "A" t)) = None.
Proof.
  unfold PyFloat.float_of_string. cbn [PyFloat.drop_underscores].
  change (Ascii.eqb "Z" PyFloat.underscore) with false.
  change (Ascii.eqb "A" PyFloat.underscore) with false.
  change (Ascii.eqb "000" PyFloat.underscore) with false.
  cbn [andb negb].
  destruct (PyFloat.drop_underscores "A" t) as [u|]; [|reflexivity].
  cbn [option_map]. unfold Str.strip_with. cbn [Str.lstrip_with].
  change (PyFloat.isspace "Z") with false. cbv iota.
  destruct (rstrip_keeps_head PyFloat.isspace "Z" (String "A" u) eq_refl)
    as [v ->].
  reflexivity.
Qed.

Lemma to_num_cleaned (c : ascii) (s : string) :
  to_num (Some (String c s))
  = match PyFloat.float_of_string
            (Str.remove_char "R" (Str.remove_char ","
               (Str.remove_char " " (String c s)))) with
    | Some v => Ok v
    | None => Raise number_format_error
    end.
Proof. unfold to_num. rewrite cleaned_token. reflexivity. Qed.

(** X25: the marker [R], with or without a blank after it, is removed. *)
Lemma to_num_R_marker (c : ascii) (s : string) :
  to_num (Some (String "R" (String c s))) = to_num (Some (String c s))
  /\ to_num (Some (String "R" (String " " (String c s))))
     = to_num (Some (String c s)).
Proof.
  rewrite !to_num_cleaned. cbn [Str.remove_char].
  change (Ascii.eqb " " "R") with false. change (Ascii.eqb " " " ") with true.
  cbv iota. cbn [Str.remove_char].
  change (Ascii.eqb "," "R") with false. cbv iota. cbn [Str.remove_char].
  change (Ascii.eqb "R" "R") with true. cbv iota.
  split; reflexivity.
Qed.

(** C1: the amount normalizer.  A missing or empty token is [0.0]; any
    other token is read by [float] after its blanks, its commas and its
    letters [R] are deleted.  The marker [ZAR] is never removed: the [R]
    is deleted first, the [ZA] stays, and every token that starts with
    [ZAR] raises; ['ZAR 1,234.50'] raises while ['R 1,234.50'] and
    ['1234.50'] are both 1234.5. *)
Theorem to_num_ZAR_marker :
  to_num None = Ok Float.zero
  /\ to_num (Some "") = Ok Float.zero
  /\ (forall s : string,
        to_num (Some (String.append "ZAR" s)) = Raise number_format_error)
  /\ to_num (Some "ZAR 1,234.50") = Raise number_format_error
  /\ to_num (Some "R 1,234.50") = Ok (Float.of_decimal false 12345 (-1))
  /\ to_num (Some "1234.50") = Ok (Float.of_decimal false 12345 (-1)).
Proof.
  repeat split; try (vm_compute; reflexivity).
  intros s. change (String.append "ZAR" s) with (String "Z" (String "A" (String "R" s))).
  rewrite to_num_cleaned. cbn [Str.remove_char].
  change (Ascii.eqb " " "Z") with false. change (Ascii.eqb " " "A") with false.
  change (Ascii.eqb " " "R") with false. cbv iota. cbn [Str.remove_char].
  change (Ascii.eqb "," "Z") with false. change (Ascii.eqb "," "A") with false.
  change (Ascii.eqb "," "R") with false. cbv iota. cbn [Str.remove_char].
  change (Ascii.eqb "R" "Z") with false. change (Ascii.eqb "R" "A") with false.
  change (Ascii.eqb "R" "R") with true. cbv iota.
  rewrite float_of_string_ZA. reflexivity.
Qed.

(* ===================================================================== *)
(** * Properties of the ledger and of the posting loop                    *)
(* ===================================================================== *)

Section PostingFacts.
Context {num : Type} `{Arith num}.

Lemma post_appends (self : Ledger num) date account debit credit narrative :
  to_dataframe (post self date account debit credit narrative)
  = to_dataframe self ++ [mk_LedgerEntry date account debit credit narrative].
Proof. reflexivity. Qed.

Lemma post_row_entries (ledger : Ledger num) (r : LabeledTransaction num) :
  entries (post_row ledger r) = entries ledger ++ [posting_of r].
Proof.
  unfold post_row, posting_of. destruct (num_ge0 (lt_Amount r)); reflexivity.
Qed.

Lemma fold_post_row_entries (df : list (LabeledTransaction num)) :
  forall ledger : Ledger num,
    entries (fold_left post_row df ledger)
    = entries ledger ++ map posting_of df.
Proof.
  induction df as [|r df IH]; intros ledger; simpl.
  - symmetry. apply app_nil_r.
  - rewrite IH, post_row_entries, <- app_assoc. reflexivity.
Qed.

Lemma post_rows_entries (df : list (LabeledTransaction num)) :
  to_dataframe (post_rows df) = map posting_of df.
Proof. unfold post_rows, to_dataframe. apply fold_post_row_entries. Qed.

End PostingFacts.

Lemma float_lt0_not_ge0 (amt : float) :
  Float.ltb amt Float.zero && Float.leb Float.zero amt = false.
Proof. destruct amt as [s|s| |s m e]; try destruct s; reflexivity. Qed.

(** C2: posting a sequence of labeled transactions.  [Ledger.post] appends,
    so the exported entries are one per transaction, in the order of the
    input; the entry of a transaction with [amount >= 0] is a debit of
    [amount], every other one (so every [amount < 0], which excludes
    [amount >= 0]) is a credit of [-amount], on the account of the
    transaction. *)
Theorem post_rows_one_entry_per_transaction :
  forall df : list (LabeledTransaction float),
    to_dataframe (post_rows df)
    = map (fun r =>
             if Float.leb Float.zero (lt_Amount r)
             then mk_LedgerEntry (lt_Date r) (lt_GL_Account r)
                    (lt_Amount r) Float.zero (lt_Description r)
             else mk_LedgerEntry (lt_Date r) (lt_GL_Account r)
                    Float.zero (Float.neg (lt_Amount r)) (lt_Description r))
          df
    /\ length (to_dataframe (post_rows df)) = length df
    /\ (forall (ledger : Ledger float) date account debit credit narrative,
          to_dataframe (post ledger date account debit credit narrative)
          = to_dataframe ledger
              ++ [mk_LedgerEntry date account debit credit narrative])
    /\ (forall amt : float,
          Float.ltb amt Float.zero && Float.leb Float.zero amt = false).
Proof.
  intros df. rewrite post_rows_entries. repeat split.
  - apply length_map.
  - apply float_lt0_not_ge0.
Qed.

(** The two sides of the entry posted for an amount. *)
Lemma posting_of_sides (r : LabeledTransaction float) :
  (le_Debit (posting_of r), le_Credit (posting_of r))
  = if Float.leb Float.zero (lt_Amount r)
    then (lt_Amount r, Float.zero)
    else (Float.zero, Float.neg (lt_Amount r)).
Proof.
  unfold posting_of. simpl.
  destruct (Float.leb Float.zero (lt_Amount r)); reflexivity.
Qed.

(** C8, as the code has it: the entry posted for a transaction never has
    both sides non-zero, and it has one non-zero side exactly when the
    amount is non-zero; a transaction of amount 0 is posted with both
    sides zero. *)
Theorem posting_single_side :
  forall r : LabeledTransaction float,
    Float.nonzero (le_Debit (posting_of r))
      && Float.nonzero (le_Credit (posting_of r)) = false
    /\ xorb (Float.nonzero (le_Debit (posting_of r)))
            (Float.nonzero (le_Credit (posting_of r)))
       = Float.nonzero (lt_Amount r).
Proof.
  intros [d desc amt acct]. unfold posting_of. simpl.
  destruct amt as [s|s| |s m e]; try destruct s; split; reflexivity.
Qed.

(** C8 fails at amount 0: the posted entry has debit 0.0 and credit 0.0,
    no side is non-zero. *)
Lemma posting_zero_amount_no_side :
  let r := mk_LabeledTransaction (mk_datetime 2024 1 5) (Some "Transfer")
             Float.zero "Bank charges" in
  le_Debit (posting_of r) = Float.zero
  /\ le_Credit (posting_of r) = Float.zero
  /\ xorb (Float.nonzero (le_Debit (posting_of r)))
          (Float.nonzero (le_Credit (posting_of r))) = false.
Proof. repeat split. Qed.

(** C9, as the code has it: one transaction gives one entry; its debit
    minus its credit is the signed amount, its debit plus its credit is
    [abs(amount)], and the amount is on the debit side when
    [amount >= 0], on the credit side otherwise. *)
Theorem posting_debit_minus_credit :
  forall r : LabeledTransaction float,
    to_dataframe (post_rows [r]) = [posting_of r]
    /\ Float.sub (le_Debit (posting_of r)) (le_Credit (posting_of r))
       = lt_Amount r
    /\ Float.add (le_Debit (posting_of r)) (le_Credit (posting_of r))
       = Float.abs (lt_Amount r)
    /\ (le_Debit (posting_of r), le_Credit (posting_of r))
       = if Float.leb Float.zero (lt_Amount r)
         then (lt_Amount r, Float.zero)
         else (Float.zero, Float.neg (lt_Amount r)).
Proof.
  intros r. split; [exact (post_rows_entries [r])|].
  split; [|split; [|apply posting_of_sides]];
    destruct r as [d desc amt acct]; unfold posting_of; simpl;
    destruct amt as [s|s| |s m e]; try destruct s; reflexivity.
Qed.

(** C9 fails at amount -500: the entry is a credit of 500, so debit minus
    credit is -500, while [abs(amount)] is 500. *)
Lemma posting_negative_amount_difference :
  let r := mk_LabeledTransaction (mk_datetime 2024 1 6) (Some "Rent")
             (Float.of_Z (-500)) "Expenses" in
  let e := posting_of r in
  to_dataframe (post_rows [r]) = [e]
  /\ le_Debit e = Float.zero
  /\ le_Credit e = Float.of_Z 500
  /\ Float.sub (le_Debit e) (le_Credit e) = Float.of_Z (-500)
  /\ Float.abs (lt_Amount r) = Float.of_Z 500
  /\ Float.eqb (Float.sub (le_Debit e) (le_Credit e))
               (Float.abs (lt_Amount r)) = false.
Proof. vm_compute. repeat split. Qed.

(* ===================================================================== *)
(** * Properties of the trial balance                                     *)
(* ===================================================================== *)

Section TrialBalanceFacts.
Context {num : Type} `{Arith num}.

Lemma group_keys_NoDup (df : list (LedgerEntry num)) :
  NoDup (group_keys df).
Proof.
  unfold group_keys. rewrite merge_sort_Permutation.
  apply NoDup_remove_dups.
Qed.

Lemma elem_of_group_keys (df : list (LedgerEntry num)) (a : string) :
  a ∈ group_keys df <-> a ∈ map le_Account df.
Proof.
  unfold group_keys. rewrite merge_sort_Permutation.
  apply elem_of_remove_dups.
Qed.

Lemma group_keys_Sorted (df : list (LedgerEntry num)) :
  Sorted String.le (group_keys df).
Proof. apply Sorted_merge_sort. apply _. Qed.

Lemma trial_balance_accounts (df : list (LedgerEntry num)) :
  map tb_Account (map (trial_balance_row df) (group_keys df))
  = group_keys df.
Proof. rewrite map_map. simpl. apply map_id. Qed.

Lemma trial_balance_nonempty (ledger : Ledger num) :
  (0 < length (entries ledger))%nat ->
  trial_balance ledger
  = Ok (map (trial_balance_row (entries ledger)) (group_keys (entries ledger))).
Proof.
  unfold trial_balance, to_dataframe.
  destruct (entries ledger); simpl; [lia | reflexivity].
Qed.

Lemma group_cons (e : LedgerEntry num) (df : list (LedgerEntry num))
    (k : string) :
  group (e :: df) k
  = if decide (le_Account e = k) then e :: group df k else group df k.
Proof. reflexivity. Qed.

End TrialBalanceFacts.

(** ** Exact values of floats *)

Lemma digits2_pos_bounds (m : positive) :
  2 ^ (Zpos (digits2_pos m) - 1) <= Zpos m < 2 ^ Zpos (digits2_pos m).
Proof.
  induction m as [m IH|m IH|]; cbn [digits2_pos].
  - rewrite Pos2Z.inj_succ.
    replace (Z.succ (Zpos (digits2_pos m)) - 1)
      with (Z.succ (Zpos (digits2_pos m) - 1)) by lia.
    rewrite !Z.pow_succ_r by lia. lia.
  - rewrite Pos2Z.inj_succ.
    replace (Z.succ (Zpos (digits2_pos m)) - 1)
      with (Z.succ (Zpos (digits2_pos m) - 1)) by lia.
    rewrite !Z.pow_succ_r by lia. lia.
  - simpl. lia.
Qed.

(** A mantissa in the format has at most 53 bits, and exactly 53 above
    the smallest exponent. *)
Lemma bounded_canonical (m : positive) (e : Z) :
  bounded Float.prec Float.emax m e = true ->
  Float.emin <= e
  /\ Zpos m < 2 ^ 53
  /\ (Float.emin < e -> 2 ^ 52 <= Zpos m).
Proof.
  unfold bounded, canonical_mantissa, fexp, emin, Float.emin, Float.prec,
    Float.emax.
  intros Hb. apply andb_true_iff in Hb as [Hc _]. apply Z.eqb_eq in Hc.
  pose proof (digits2_pos_bounds m) as [Hlo Hhi].
  set (d := Zpos (digits2_pos m)) in *.
  assert (0 < d) by (unfold d; lia).
  split; [lia|]. split.
  - apply Z.lt_le_trans with (1 := Hhi).
    apply Z.pow_le_mono_r; lia.
  - intros He. assert (d = 53) as Hd by lia.
    rewrite Hd in Hlo. exact Hlo.
Qed.

Lemma scaled_finite_pos (m : positive) (e : Z) :
  Float.emin <= e -> 0 < Zpos m * 2 ^ (e - Float.emin).
Proof.
  intros He. apply Z.mul_pos_pos; [lia|]. apply Z.pow_pos_nonneg; lia.
Qed.

(** Two mantissas in the format with the same value are the same. *)
Lemma canonical_unique (m1 m2 : positive) (e1 e2 : Z) :
  bounded Float.prec Float.emax m1 e1 = true ->
  bounded Float.prec Float.emax m2 e2 = true ->
  Zpos m1 * 2 ^ (e1 - Float.emin) = Zpos m2 * 2 ^ (e2 - Float.emin) ->
  e1 = e2 /\ m1 = m2.
Proof.
  intros H1 H2 Heq.
  apply bounded_canonical in H1 as (He1 & Hm1 & Hn1).
  apply bounded_canonical in H2 as (He2 & Hm2 & Hn2).
  assert (forall (a b : positive) (ea eb : Z),
             Float.emin <= ea -> ea < eb -> Zpos a < 2 ^ 53 ->
             2 ^ 52 <= Zpos b ->
             Zpos a * 2 ^ (ea - Float.emin) = Zpos b * 2 ^ (eb - Float.emin) ->
             False) as Hlt.
  { intros a b ea eb Hea Hlt Ha Hb E.
    replace (eb - Float.emin) with ((eb - ea) + (ea - Float.emin)) in E by lia.
    rewrite Z.pow_add_r in E by lia.
    rewrite Z.mul_assoc in E.
    apply Z.mul_cancel_r in E.
    2:{ apply Z.neq_sym, Z.lt_neq, Z.pow_pos_nonneg; lia. }
    assert (2 ^ 1 <= 2 ^ (eb - ea)) by (apply Z.pow_le_mono_r; lia).
    change (2 ^ 1) with 2 in *. change (2 ^ 53) with (2 ^ 52 * 2) in Ha.
    nia. }
  destruct (Z.lt_trichotomy e1 e2) as [Hc|[Hc|Hc]].
  - exfalso. apply (Hlt m1 m2 e1 e2); auto. apply Hn2. lia.
  - subst e2. split; [reflexivity|].
    apply Z.mul_cancel_r in Heq; [congruence|].
    apply Z.neq_sym, Z.lt_neq, Z.pow_pos_nonneg; lia.
  - exfalso. apply (Hlt m2 m1 e2 e1); auto. apply Hn1. lia.
Qed.

Lemma compare_cont_refl (m : positive) : Pos.compare_cont Eq m m = Eq.
Proof. apply Pos.compare_cont_refl. Qed.

(** Two finite floats of the same value are equal for [==]. *)
Lemma scaled_eq_eqb (x y : float) :
  Float.is_finite x = true -> Float.is_finite y = true ->
  Float.scaled x = Float.scaled y ->
  Float.eqb x y = true.
Proof.
  destruct x as [sx|sx| |sx mx ex], y as [sy|sy| |sy my ey];
    simpl; try discriminate; intros Hx Hy E.
  - reflexivity.
  - pose proof (bounded_canonical _ _ Hy) as (He & _ & _).
    pose proof (scaled_finite_pos my ey He). destruct sy; lia.
  - pose proof (bounded_canonical _ _ Hx) as (He & _ & _).
    pose proof (scaled_finite_pos mx ex He). destruct sx; lia.
  - pose proof (bounded_canonical _ _ Hx) as (Hex & _ & _).
    pose proof (bounded_canonical _ _ Hy) as (Hey & _ & _).
    pose proof (scaled_finite_pos mx ex Hex).
    pose proof (scaled_finite_pos my ey Hey).
    assert (sx = sy) as -> by (destruct sx, sy; try reflexivity; lia).
    assert (Zpos mx * 2 ^ (ex - Float.emin) = Zpos my * 2 ^ (ey - Float.emin))
      as E' by (destruct sy; lia).
    destruct (canonical_unique _ _ _ _ Hx Hy E') as [-> ->].
    unfold Float.eqb, SFeqb, SFcompare.
    rewrite Z.compare_refl, compare_cont_refl. destruct sy; reflexivity.
Qed.

(** ** Sums of integers over the groups *)

Lemma Zsum_map_sub {K} (f g : K -> Z) (ks : list K) :
  Zsum (map (fun k => f k - g k) ks) = Zsum (map f ks) - Zsum (map g ks).
Proof. induction ks as [|k ks IH]; simpl; lia. Qed.

Lemma Zsum_zeros {K} (ks : list K) : Zsum (map (fun _ => 0) ks) = 0.
Proof. induction ks as [|k ks IH]; simpl; lia. Qed.

(** Adding [x] to the term of the key [a] adds [x] to the sum, when the
    keys are distinct. *)
Lemma Zsum_add_at (a : string) (x : Z) (f : string -> Z) (ks : list string) :
  NoDup ks ->
  Zsum (map (fun k => if decide (a = k) then x + f k else f k) ks)
  = if decide (a ∈ ks) then x + Zsum (map f ks) else Zsum (map f ks).
Proof.
  induction 1 as [|k ks Hk Hks IH]; simpl.
  - reflexivity.
  - rewrite IH. destruct (decide (a = k)) as [->|Hne].
    + rewrite (decide_True (P := k ∈ k :: ks)) by (left).
      rewrite (decide_False (P := k ∈ ks)) by assumption. lia.
    + destruct (decide (a ∈ ks)) as [Hin|Hnin].
      * rewrite (decide_True (P := a ∈ k :: ks)) by (right; assumption). lia.
      * rewrite (decide_False (P := a ∈ k :: ks)); [reflexivity|].
        intros Hin. apply elem_of_cons in Hin as [?|?]; tauto.
Qed.

(** The sums over the groups add up to the sum over the column. *)
Lemma Zsum_groups (v : LedgerEntry float -> Z) (ks : list string) :
  NoDup ks ->
  forall df : list (LedgerEntry float),
    (forall e, e ∈ df -> le_Account e ∈ ks) ->
    Zsum (map (fun k => Zsum (map v (group df k))) ks) = Zsum (map v df).
Proof.
  intros Hks. induction df as [|e df IH]; intros Hin.
  - simpl. apply Zsum_zeros.
  - simpl. rewrite <- IH.
    2:{ intros e' He'. apply Hin. right. exact He'. }
    transitivity
      (Zsum
         (map (fun k => if decide (le_Account e = k)
                        then v e + Zsum (map v (group df k))
                        else Zsum (map v (group df k))) ks)).
    + f_equal. apply map_ext. intros k. rewrite group_cons.
      destruct (decide (le_Account e = k)); reflexivity.
    + rewrite (Zsum_add_at (le_Account e) (v e)
                 (fun k => Zsum (map v (group df k))) ks Hks).
      rewrite decide_True; [reflexivity|]. apply Hin. left.
Qed.

Lemma exact_sum_spec (terms : list float) (s : float) :
  exact_sum terms s = true ->
  Float.is_finite s = true
  /\ Float.scaled s = Zsum (map Float.scaled terms).
Proof.
  unfold exact_sum. rewrite !andb_true_iff, Z.eqb_eq. tauto.
Qed.

Lemma exact_sub_spec (a b d : float) :
  exact_sub a b d = true ->
  Float.is_finite d = true
  /\ Float.scaled d = Float.scaled a - Float.scaled b.
Proof.
  unfold exact_sub. rewrite !andb_true_iff, Z.eqb_eq. tauto.
Qed.

(** When no sum is rounded, the balances add up to the total of the
    debits minus the total of the credits. *)
Lemma trial_balance_total (ledger : Ledger float)
    (total_balance total_debit total_credit : float) :
  rows_exact ledger = true ->
  let df := entries ledger in
  let tb := map (trial_balance_row df) (group_keys df) in
  exact_sum (map tb_Balance tb) total_balance = true ->
  exact_sum (map le_Debit df) total_debit = true ->
  exact_sum (map le_Credit df) total_credit = true ->
  exact_sub total_debit total_credit (Float.sub total_debit total_credit)
  = true ->
  Float.eqb total_balance (Float.sub total_debit total_credit) = true.
Proof.
  intros Hrows df tb Hbal Hdeb Hcred Hsub.
  unfold rows_exact, to_dataframe in Hrows. cbv zeta in Hrows.
  fold df in Hrows. fold tb in Hrows.
  apply exact_sum_spec in Hbal as [Fbal Ebal].
  apply exact_sum_spec in Hdeb as [_ Edeb].
  apply exact_sum_spec in Hcred as [_ Ecred].
  apply exact_sub_spec in Hsub as [Fsub Esub].
  apply scaled_eq_eqb; [exact Fbal | exact Fsub |].
  rewrite Ebal, Esub, Edeb, Ecred.
  rewrite forallb_forall in Hrows.
  transitivity
    (Zsum (map (fun k => Zsum (map (fun e => Float.scaled (le_Debit e)) (group df k))
                         - Zsum (map (fun e => Float.scaled (le_Credit e)) (group df k)))
               (group_keys df))).
  - unfold tb. rewrite !map_map. f_equal. apply map_ext_in.
    intros k Hk.
    specialize (Hrows (trial_balance_row df k) (in_map _ _ _ Hk)).
    rewrite !andb_true_iff in Hrows. destruct Hrows as [[Hd Hc] Hb].
    apply exact_sum_spec in Hd as [_ Ed].
    apply exact_sum_spec in Hc as [_ Ec].
    apply exact_sub_spec in Hb as [_ Eb].
    rewrite Eb, Ed, Ec, !map_map. reflexivity.
  - rewrite Zsum_map_sub.
    rewrite !Zsum_groups, !map_map; try reflexivity;
      try apply group_keys_NoDup;
      intros e He; apply elem_of_group_keys, list_elem_of_In, in_map,
        list_elem_of_In, He.
Qed.

(** C3, as the code has it.  For a ledger that has an entry, the trial
    balance has one row per distinct account (the account strings are
    compared exactly); the Debit of a row is the sum that pandas takes
    of the debits of its account (compensated, NaN values skipped), the
    Credit likewise, and the Balance is the float Debit - Credit; and
    when no sum and no difference involved is rounded, that is when the
    Debit, the Credit and the Balance of every row are exact and the
    totals of the three columns and the difference of the last two are,
    the total of the Balance column equals the total of the debits
    minus the total of the credits of the ledger. *)
Theorem trial_balance_rows :
  forall ledger : Ledger float,
    (0 < length (entries ledger))%nat ->
    exists tb : list (TrialBalanceRow float),
      trial_balance ledger = Ok tb
      /\ NoDup (map tb_Account tb)
      /\ (forall a : string,
            a ∈ map tb_Account tb <-> a ∈ map le_Account (entries ledger))
      /\ (forall r : TrialBalanceRow float,
            r ∈ tb ->
            tb_Debit r
            = Float.group_sum
                (map le_Debit
                   (filter (fun e => le_Account e = tb_Account r)
                           (entries ledger)))
            /\ tb_Credit r
               = Float.group_sum
                   (map le_Credit
                      (filter (fun e => le_Account e = tb_Account r)
                              (entries ledger)))
            /\ tb_Balance r = Float.sub (tb_Debit r) (tb_Credit r))
      /\ (rows_exact ledger = true ->
          forall total_balance total_debit total_credit : float,
            exact_sum (map tb_Balance tb) total_balance = true ->
            exact_sum (map le_Debit (entries ledger)) total_debit = true ->
            exact_sum (map le_Credit (entries ledger)) total_credit = true ->
            exact_sub total_debit total_credit
                      (Float.sub total_debit total_credit) = true ->
            Float.eqb total_balance (Float.sub total_debit total_credit)
            = true).
Proof.
  intros ledger Hne.
  exists (map (trial_balance_row (entries ledger)) (group_keys (entries ledger))).
  split; [apply trial_balance_nonempty, Hne|].
  rewrite trial_balance_accounts.
  split; [apply group_keys_NoDup|].
  split; [apply elem_of_group_keys|].
  split.
  - intros r Hr. apply list_elem_of_In, in_map_iff in Hr as [k [<- _]].
    repeat split.
  - intros Hex tbal tdeb tcred. apply (trial_balance_total ledger), Hex.
Qed.

(** On [ledger_books] no sum is rounded: the balances -500, 1025.5 and
    -1.25 add up to 524.25, which is the total of the debits, 1025.5,
    minus the total of the credits, 501.25, the totals being those of
    [Series.sum]. *)
Lemma trial_balance_rows_witness :
  exists tb : list (TrialBalanceRow float),
    trial_balance Sample.ledger_books = Ok tb
    /\ map tb_Account tb = ["Expenses"; "Sales"; "sales"]
    /\ map tb_Balance tb
       = [Float.of_Z (-500); Float.of_decimal false 10255 (-1);
          Float.of_decimal true 125 (-2)]
    /\ Float.series_sum (map tb_Balance tb)
       = Float.of_decimal false 52425 (-2)
    /\ Float.eqb
         (Float.series_sum (map tb_Balance tb))
         (Float.sub
            (Float.series_sum (map le_Debit (entries Sample.ledger_books)))
            (Float.series_sum (map le_Credit (entries Sample.ledger_books))))
       = true.
Proof.
  destruct (trial_balance_rows Sample.ledger_books)
    as (tb & Htb & _ & _ & _ & Hsum).
  - simpl. lia.
  - exists tb.
    specialize
      (Hsum eq_refl
         (Float.series_sum (map tb_Balance tb))
         (Float.series_sum (map le_Debit (entries Sample.ledger_books)))
         (Float.series_sum (map le_Credit (entries Sample.ledger_books)))).
    vm_compute in Htb. injection Htb as <-.
    split; [reflexivity|]. split; [reflexivity|].
    split; [vm_compute; reflexivity|].
    split; [vm_compute; reflexivity|].
    apply Hsum; vm_compute; reflexivity.
Defined.

(** C3 fails on the code in two places.  The frame of a ledger without
    entries has no Account column, and [trial_balance] raises instead of
    giving no rows.  And float sums round: on [ledger_rounding] the
    balances are 0 and 1 and add up to 1, while the debits add up to 1e16
    (1e16 + 1 rounds to 1e16) and the credits to 1e16, difference 0;
    this with the sum of a column and with the compensated sum of a
    group alike. *)
Lemma trial_balance_total_rounds :
  trial_balance (new_ledger (num := float)) = Raise (KeyError "Account")
  /\ exists tb : list (TrialBalanceRow float),
       trial_balance Sample.ledger_rounding = Ok tb
       /\ map tb_Account tb = ["A"; "B"]
       /\ map tb_Balance tb = [Float.zero; Float.of_Z 1]
       /\ Float.series_sum (map tb_Balance tb) = Float.of_Z 1
       /\ Float.sub
            (Float.series_sum (map le_Debit (entries Sample.ledger_rounding)))
            (Float.series_sum (map le_Credit (entries Sample.ledger_rounding)))
          = Float.zero
       /\ Float.group_sum (map tb_Balance tb) = Float.of_Z 1
       /\ Float.sub
            (Float.group_sum (map le_Debit (entries Sample.ledger_rounding)))
            (Float.group_sum (map le_Credit (entries Sample.ledger_rounding)))
          = Float.zero
       /\ Float.eqb (Float.of_Z 1) Float.zero = false.
Proof.
  split; [reflexivity|].
  eexists. split; [vm_compute; reflexivity|].
  vm_compute. repeat split.
Qed.

(* ===================================================================== *)
(** * Properties of the VAT stage                                         *)
(* ===================================================================== *)

(** C4: [calculate_vat] is the rounding to two decimals of
    [amount * 0.15 / (1 + 0.15)], a total function of the amount;
    115 gives 15.0, 0 gives 0.0 and -115 gives -15.0, a negative VAT. *)
Theorem calculate_vat_formula :
  (forall amount : float,
     calculate_vat amount
     = Float.round2
         (Float.div (Float.mul amount (Float.of_decimal false 15 (-2)))
                    (Float.add (Float.of_Z 1) (Float.of_decimal false 15 (-2)))))
  /\ calculate_vat (Float.of_Z 115) = Float.of_Z 15
  /\ calculate_vat (Float.of_Z 0) = Float.of_Z 0
  /\ calculate_vat (Float.of_Z (-115)) = Float.of_Z (-15)
  /\ Float.ltb (calculate_vat (Float.of_Z (-115))) Float.zero = true.
Proof.
  split; [intros amount; reflexivity|].
  repeat split; vm_compute; reflexivity.
Qed.

Section ContainsFacts.
Import Str.



Lemma lower_append (a b : string) :
  lower (String.append a b) = String.append (lower a) (lower b).
Proof. induction a as [|c a IH]; simpl; [reflexivity | rewrite IH; reflexivity]. Qed.

Lemma lower_split (x y s : string) :
  lower s = String.append x y ->
  exists a b, s = String.append a b /\ lower a = x /\ lower b = y.
Proof.
  revert s. induction x as [|c x IH]; intros s Hs.
  - exists EmptyString, s. auto.
  - destruct s as [|d s]; [discriminate|].
    simpl in Hs. injection Hs as Hc Hs.
    destruct (IH s Hs) as (a & b & -> & <- & <-).
    exists (String d a), b. simpl. rewrite Hc. auto.
Qed.



End ContainsFacts.

(** The recursion of [pairwise_sum] never runs out of fuel: from the
    length of the list on, the result does not depend on the fuel. *)
Lemma pairwise_sum_fuel (fuel : nat) :
  forall (fuel' : nat) (a : list float),
    (length a <= fuel)%nat -> (length a <= fuel')%nat ->
    Float.pairwise_sum fuel a = Float.pairwise_sum fuel' a.
Proof.
  induction fuel as [|k IH]; intros fuel' a H1 H2.
  - destruct a; [|simpl in H1; lia]. destruct fuel'; reflexivity.
  - destruct fuel' as [|k'].
    + destruct a; [reflexivity | simpl in H2; lia].
    + cbn [Float.pairwise_sum].
      destruct (Nat.ltb_spec (length a) 8); [reflexivity|].
      destruct (Nat.leb_spec (length a) 128); [reflexivity|].
      pose proof (Nat.div_mod_eq (length a) 2).
      pose proof (Nat.mod_upper_bound (length a) 2).
      pose proof (Nat.mod_upper_bound (length a / 2) 8).
      f_equal; apply IH; rewrite ?length_take, ?length_drop; lia.
Qed.

(** [Series.sum]: a column of one number sums to that number, a column
    of one NaN and a column without rows to 0.0. *)
Lemma series_sum_single (x : float) :
  Float.series_sum [x] = (if Float.is_nan x then Float.zero else x)
  /\ Float.series_sum [] = Float.zero.
Proof. split; [|reflexivity]. destruct x as [[|]|[|]| |[|] m e]; reflexivity. Qed.

(** The two sums on the same values: the sum of a group is
    compensated, the sum of a column is not, and only the latter keeps
    the sign of -0.0. *)
Example group_sum_and_series_sum :
  Float.group_sum [Float.of_Z (10 ^ 16); Float.of_Z 1; Float.of_Z 1]
  = Float.of_Z (10 ^ 16 + 2)
  /\ Float.series_sum [Float.of_Z (10 ^ 16); Float.of_Z 1; Float.of_Z 1]
     = Float.of_Z (10 ^ 16)
  /\ Float.group_sum [Float.of_Z 1; S754_nan; Float.of_Z 2] = Float.of_Z 3
  /\ Float.series_sum [Float.of_Z 1; S754_nan; Float.of_Z 2] = Float.of_Z 3
  /\ Float.group_sum [S754_nan] = Float.zero
  /\ Float.group_sum [Float.neg_zero] = Float.zero
  /\ Float.series_sum [Float.neg_zero] = Float.neg_zero.
Proof. vm_compute. repeat split. Qed.


(** The scenario of the two transactions: sales 1000 and purchases -500
    give 130.43, -65.22 and 195.65. *)
Example vat_stage_scenario :
  exists tb, trial_balance (post_rows Sample.labeled) = Ok tb
    /\ map tb_Account tb = ["Expenses"; "Sales"]
    /\ map tb_Balance tb = [Float.of_Z (-500); Float.of_Z 1000]
    /\ vat_stage Float.series_sum tb
       = mk_VATResult (Float.of_decimal false 13043 (-2))
                      (Float.of_decimal true 6522 (-2))
                      (Float.of_decimal false 19565 (-2)).
Proof. eexists. split; [vm_compute; reflexivity|]. vm_compute. repeat split. Qed.

(** The rounding of numpy is not that of Python: on a single Sales row
    of 7028055241157.9 the program prints 916702857542.34, where
    [round] on the Python float of the same value gives
    916702857542.33. *)
Example vat_stage_numpy_rounding :
  let tb := [mk_TrialBalanceRow "Sales"
               (Float.of_decimal false 70280552411579 (-1)) Float.zero
               (Float.of_decimal false 70280552411579 (-1))] in
  vat_out (vat_stage Float.series_sum tb)
  = Float.of_decimal false 91670285754234 (-2)
  /\ calculate_vat (Float.of_decimal false 70280552411579 (-1))
     = Float.of_decimal false 91670285754233 (-2).
Proof. vm_compute. split; reflexivity. Qed.

(* ===================================================================== *)
(** * Properties of the statement parser                                  *)
(* ===================================================================== *)

Section ParserFacts.
Variable to_datetime : list value -> result (list value).

Lemma strip_labels_spec (cs : list value) :
  strip_labels cs
  = match first_non_text cs with
    | Some c => Raise (no_strip_error c)
    | None => Ok (map (fun c => Str.strip (label_text c)) cs)
    end.
Proof.
  induction cs as [|c cs IH]; [reflexivity|].
  destruct c; try reflexivity.
  cbn [strip_labels strip_label bind first_non_text]. rewrite IH.
  destruct (first_non_text cs); reflexivity.
Qed.

Lemma canonical_frame_too_few_columns (df : RawFrame) :
  (length (raw_columns df) < 3)%nat ->
  canonical_frame to_datetime df
  = Raise match first_non_text (raw_columns df) with
          | Some c => no_strip_error c
          | None => schema_error
          end.
Proof.
  intros Hlen. unfold canonical_frame. rewrite strip_labels_spec.
  destruct (first_non_text (raw_columns df)); [reflexivity|].
  cbn [bind]. rewrite length_map.
  destruct (Nat.ltb_spec (length (raw_columns df)) 3); [reflexivity | lia].
Qed.

(** C6, as the code has it: a spreadsheet with fewer than three columns.
    The call always raises and returns no frame.  It raises the schema
    error when every header is a text; the headers are stripped before
    the columns are counted, so a header that is a number or a date
    makes the call raise the AttributeError of its missing [strip]
    instead. *)
Theorem spreadsheet_too_few_columns :
  forall f : UploadedFile,
    is_pdf (name f) = false ->
    (length (raw_columns (sheet f)) < 3)%nat ->
    parse_bank_statement to_datetime f
    = Raise
        match first_non_text (raw_columns (sheet f)) with
        | None =>
            ValueError "Statement must have Date, Description, Amount columns."
        | Some c =>
            AttributeError
              (String.append "'"
                 (String.append (type_name c)
                    "' object has no attribute 'strip'"))
        end
    /\ forall df : DataFrame, parse_bank_statement to_datetime f <> Ok df.
Proof.
  intros f Hname Hlen.
  assert (parse_bank_statement to_datetime f
          = Raise match first_non_text (raw_columns (sheet f)) with
                  | Some c => no_strip_error c
                  | None => schema_error
                  end) as E.
  { unfold parse_bank_statement. rewrite Hname. simpl.
    apply canonical_frame_too_few_columns, Hlen. }
  split.
  - rewrite E. destruct (first_non_text (raw_columns (sheet f))); reflexivity.
  - intros df. rewrite E. discriminate.
Qed.

(** C10: a PDF that yields no record, because it has no table or because
    every row of its tables is skipped.  The frame of no record has no
    column, and the call raises the schema error of a spreadsheet with
    too few columns instead of returning an empty frame. *)
Theorem pdf_without_records :
  forall f : UploadedFile,
    is_pdf (name f) = true ->
    pdf_pages (pages f) [] = Ok [] ->
    parse_bank_statement to_datetime f
    = Raise (ValueError "Statement must have Date, Description, Amount columns.")
    /\ forall df : DataFrame, parse_bank_statement to_datetime f <> Ok df.
Proof.
  intros f Hname Hrec.
  assert (parse_bank_statement to_datetime f = Raise schema_error) as E.
  { unfold parse_bank_statement. rewrite Hname, Hrec. reflexivity. }
  split; [exact E|]. intros df. rewrite E. discriminate.
Qed.

End ParserFacts.

(** Two columns with text headers raise the schema error; two columns
    of which the first header is the number 2024 raise the
    AttributeError. *)
Lemma spreadsheet_too_few_columns_witness :
  parse_bank_statement Sample.keep_dates Sample.sheet_two_columns
  = Raise (ValueError "Statement must have Date, Description, Amount columns.")
  /\ parse_bank_statement Sample.keep_dates Sample.sheet_year_header
     = Raise (AttributeError "'int' object has no attribute 'strip'")
  /\ parse_bank_statement Sample.keep_dates Sample.sheet_year_header
     <> Raise (ValueError
                 "Statement must have Date, Description, Amount columns.").
Proof.
  split; [|split].
  - apply (spreadsheet_too_few_columns Sample.keep_dates
             Sample.sheet_two_columns); [reflexivity | simpl; lia].
  - apply (spreadsheet_too_few_columns Sample.keep_dates
             Sample.sheet_year_header); [reflexivity | simpl; lia].
  - discriminate.
Defined.

Lemma pdf_without_records_witness :
  parse_bank_statement Sample.keep_dates Sample.statement_no_table
  = Raise (ValueError "Statement must have Date, Description, Amount columns.")
  /\ parse_bank_statement Sample.keep_dates
       (Sample.statement
          [Sample.row_bad_date; Sample.headers; Sample.row_empty_date])
     = Raise (ValueError "Statement must have Date, Description, Amount columns.").
Proof.
  split.
  - apply (pdf_without_records Sample.keep_dates Sample.statement_no_table);
      reflexivity.
  - apply (pdf_without_records Sample.keep_dates
             (Sample.statement
                [Sample.row_bad_date; Sample.headers; Sample.row_empty_date]));
      reflexivity.
Defined.

(** A page without a table, or with an empty one, adds no record. *)
Lemma pdf_pages_no_table (ps : list (option table)) (records : list record) :
  Forall (fun t => t = None \/ t = Some []) ps ->
  pdf_pages ps records = Ok records.
Proof.
  induction 1 as [|t ps [-> | ->] _ IH]; simpl; auto.
Qed.

(** A row whose date text is no date is skipped, whatever its other cells
    hold. *)
Lemma pdf_row_unparsable_date (headers r : row) (c : string)
    (records : list record) :
  r !! 0%nat = Some (Some c) ->
  Strptime.strptime (Str.strip c) = None ->
  pdf_row headers r records = Ok records.
Proof.
  intros Hc Hd. unfold pdf_row.
  destruct (decide (r = headers)); [reflexivity|].
  rewrite Hc, Hd. reflexivity.
Qed.

Lemma pdf_rows_app (headers : row) (pre post : list row) :
  forall records,
    pdf_rows headers (pre ++ post) records
    = (records' <- pdf_rows headers pre records ;;
       pdf_rows headers post records').
Proof.
  induction pre as [|r pre IH]; intros records; simpl; [reflexivity|].
  destruct (pdf_row headers r records); simpl; [apply IH | reflexivity].
Qed.

(** The rows before and after a row with an unparsable date text are
    parsed as if the row were not in the table. *)
Lemma pdf_rows_unparsable_date (headers r : row) (c : string)
    (pre post : list row) (records : list record) :
  r !! 0%nat = Some (Some c) ->
  Strptime.strptime (Str.strip c) = None ->
  pdf_rows headers (pre ++ r :: post) records
  = pdf_rows headers (pre ++ post) records.
Proof.
  intros Hc Hd. rewrite !pdf_rows_app.
  destruct (pdf_rows headers pre records) as [records'|e]; simpl;
    [|reflexivity].
  rewrite (pdf_row_unparsable_date headers r c records' Hc Hd). reflexivity.
Qed.

Lemma pdf_pages_app (before after : list (option table)) :
  forall records,
    pdf_pages (before ++ after) records
    = (records' <- pdf_pages before records ;; pdf_pages after records').
Proof.
  induction before as [|t before IH]; intros records; simpl; [reflexivity|].
  destruct (pdf_page t records); simpl; [apply IH | reflexivity].
Qed.

(** X26: the whole call gives what it gives for the file without the row. *)
Lemma parse_bank_statement_unparsable_date
    (to_datetime : list value -> result (list value))
    (file_name : string) (before after : list (option table))
    (headers r : row) (c : string) (pre post : list row) (sh : RawFrame) :
  r !! 0%nat = Some (Some c) ->
  Strptime.strptime (Str.strip c) = None ->
  parse_bank_statement to_datetime
    (mk_UploadedFile file_name
       (before ++ Some (headers :: pre ++ r :: post) :: after) sh)
  = parse_bank_statement to_datetime
      (mk_UploadedFile file_name
         (before ++ Some (headers :: pre ++ post) :: after) sh).
Proof.
  intros Hc Hd. unfold parse_bank_statement. simpl.
  destruct (is_pdf file_name); [|reflexivity].
  rewrite !pdf_pages_app.
  destruct (pdf_pages before []) as [records|e]; [|reflexivity].
  cbn [bind pdf_pages pdf_page].
  rewrite (pdf_rows_unparsable_date headers r c pre post records Hc Hd).
  reflexivity.
Qed.

(** C7: a row with a date text that is no date is skipped, an empty text
    included; but the date cell is stripped before the [try], so a row
    whose date cell is missing ([None]) is not skipped: unless it is the
    header row again, the call raises [AttributeError]. *)
Theorem pdf_row_missing_date_raises :
  (forall (headers rest : row) (records : list record),
     pdf_row headers (None :: rest) records
     = if decide (None :: rest = headers) then Ok records
       else Raise (AttributeError "'NoneType' object has no attribute 'strip'"))
  /\ parse_bank_statement Sample.keep_dates
       (Sample.statement
          [Sample.row_sale; Sample.row_missing_date; Sample.row_rent])
     = Raise (AttributeError "'NoneType' object has no attribute 'strip'")
  /\ parse_bank_statement Sample.keep_dates
       (Sample.statement
          [Sample.row_sale; Sample.row_bad_date; Sample.row_empty_date;
           Sample.row_rent])
     = parse_bank_statement Sample.keep_dates
         (Sample.statement [Sample.row_sale; Sample.row_rent])
  /\ parse_bank_statement Sample.keep_dates
       (Sample.statement [Sample.row_sale; Sample.row_rent])
     = Ok (mk_DataFrame ["Date"; "Description"; "Amount"]
             [[VDate Sample.jan5; VStr "Sale A"; VFloat (Float.of_Z 1000)];
              [VDate Sample.jan6; VStr "Rent"; VFloat (Float.of_Z (-500))]]).
Proof.
  split; [|repeat split; vm_compute; reflexivity].
  intros headers rest records. unfold pdf_row.
  repeat case_decide; try reflexivity; contradiction.
Qed.

(* ===================================================================== *)
(** * Further properties of the amount normalizer                         *)
(* ===================================================================== *)

Section TokenFacts.
Import Str.

Lemma has_char_append (c : ascii) (a b : string) :
  has_char c (String.append a b) = has_char c a || has_char c b.
Proof.
  induction a as [|x a IH]; simpl; [reflexivity|].
  rewrite IH. apply orb_assoc.
Qed.

Lemma remove_char_absent (c : ascii) (s : string) :
  has_char c s = false -> remove_char c s = s.
Proof.
  induction s as [|b s IH]; simpl; [reflexivity|].
  intros H. apply orb_false_elim in H as [Hb Hs].
  rewrite Hb, (IH Hs). reflexivity.
Qed.

Lemma isdigit_not_marker (c : ascii) :
  isdigit c = true ->
  Ascii.eqb " " c = false /\ Ascii.eqb "," c = false
  /\ Ascii.eqb "R" c = false /\ Ascii.eqb PyFloat.underscore c = false
  /\ PyFloat.isspace c = false /\ lower_char c = c
  /\ Ascii.eqb c "-" = false /\ Ascii.eqb c "+" = false
  /\ Ascii.eqb c "i" = false /\ Ascii.eqb c "n" = false
  /\ Ascii.eqb c "." = false.
Proof.
  destruct c as [[] [] [] [] [] [] [] []]; vm_compute; intros H;
    try discriminate H; repeat split.
Qed.

Lemma all_digits_has_char (c : ascii) (s : string) :
  all_digits s = true -> has_char c s = true -> isdigit c = true.
Proof.
  induction s as [|b s IH]; simpl; [discriminate|].
  intros H Hc. apply andb_prop in H as [Hb Hs].
  apply orb_prop in Hc as [Hc|Hc]; [|exact (IH Hs Hc)].
  apply Ascii.eqb_eq in Hc. subst. exact Hb.
Qed.

Lemma all_digits_append (a b : string) :
  all_digits (String.append a b) = all_digits a && all_digits b.
Proof.
  induction a as [|x a IH]; simpl; [reflexivity|].
  rewrite IH. apply andb_assoc.
Qed.

(** A character that no digit is does not occur among digits. *)
Lemma all_digits_lacks (c : ascii) (s : string) :
  isdigit c = false -> all_digits s = true -> has_char c s = false.
Proof.
  intros Hc Hs. destruct (has_char c s) eqn:E; [|reflexivity].
  rewrite (all_digits_has_char c s Hs E) in Hc. discriminate.
Qed.

Lemma lower_all_digits (s : string) : all_digits s = true -> lower s = s.
Proof.
  induction s as [|b s IH]; simpl; [reflexivity|].
  intros H. apply andb_prop in H as [Hb Hs].
  destruct (isdigit_not_marker b Hb) as (_ & _ & _ & _ & _ & -> & _).
  rewrite (IH Hs). reflexivity.
Qed.

Lemma drop_underscores_absent (s : string) :
  has_char PyFloat.underscore s = false ->
  forall prev, Ascii.eqb prev PyFloat.underscore = false ->
  PyFloat.drop_underscores prev s = Some s.
Proof.
  induction s as [|b s IH]; intros H prev Hp.
  - cbn [PyFloat.drop_underscores]. rewrite Hp. reflexivity.
  - cbn [has_char] in H. apply orb_false_elim in H as [Hb Hs].
    cbn [PyFloat.drop_underscores].
    rewrite (Ascii.eqb_sym b PyFloat.underscore), Hb, Hp.
    cbn [andb]. rewrite (IH Hs b); [reflexivity|].
    rewrite Ascii.eqb_sym. exact Hb.
Qed.

Lemma lstrip_with_head (sp : ascii -> bool) (c : ascii) (s : string) :
  sp c = false -> lstrip_with sp (String c s) = String c s.
Proof. intros H. simpl. rewrite H. reflexivity. Qed.

Lemma rstrip_with_no_space (sp : ascii -> bool) (s : string) :
  (forall c, has_char c s = true -> sp c = false) ->
  rstrip_with sp s = s.
Proof.
  induction s as [|b s IH]; intros H; [reflexivity|].
  simpl. rewrite IH.
  - destruct s; [|reflexivity].
    rewrite (H b); [reflexivity|]. simpl. rewrite Ascii.eqb_refl. reflexivity.
  - intros c Hc. apply H. simpl. rewrite Hc. apply orb_true_r.
Qed.

Lemma span_digits_append (a r : string) :
  all_digits a = true ->
  match r with String c _ => isdigit c = false | EmptyString => True end ->
  span_digits (String.append a r) = (a, r).
Proof.
  intros Ha Hr. induction a as [|x a IH]; simpl.
  - destruct r as [|c r]; [reflexivity|]. simpl. rewrite Hr. reflexivity.
  - simpl in Ha. apply andb_prop in Ha as [Hx Ha].
    rewrite Hx, (IH Ha). reflexivity.
Qed.

End TokenFacts.

Lemma to_num_nonempty (s : string) :
  s <> EmptyString ->
  to_num (Some s)
  = match PyFloat.float_of_string (cleaned_of s) with
    | Some v => Ok v
    | None => Raise number_format_error
    end.
Proof.
  destruct s as [|c s]; [congruence|]. intros _. apply to_num_cleaned.
Qed.

(** X1: two non-empty tokens that differ only in their blanks, their
    commas and their letters [R], wherever these stand, normalize alike:
    to the same number, or both to the number format error. *)
Theorem to_num_ignores_separators :
  forall s s' : string,
    s <> EmptyString -> s' <> EmptyString ->
    cleaned_of s = cleaned_of s' ->
    to_num (Some s) = to_num (Some s').
Proof.
  intros s s' Hs Hs' E. rewrite !to_num_nonempty, E by assumption.
  reflexivity.
Qed.

Lemma to_num_ignores_separators_witness :
  to_num (Some "R 12,345,678.90") = to_num (Some "12345678.90")
  /\ to_num (Some "1 2R3,x") = to_num (Some "123x").
Proof.
  split; apply to_num_ignores_separators;
    try discriminate; vm_compute; reflexivity.
Defined.

Lemma string_append_nil_r (s : string) : String.append s EmptyString = s.
Proof.
  induction s as [|c s IH]; [reflexivity|].
  change (String c (String.append s EmptyString) = String c s).
  rewrite IH. reflexivity.
Qed.

Section DecimalTokens.
Import Str.

Lemma parse_sign_digit (c : ascii) (r : string) :
  isdigit c = true -> PyFloat.parse_sign (String c r) = (false, String c r).
Proof.
  destruct c as [[] [] [] [] [] [] [] []]; vm_compute; intros H;
    try discriminate H; reflexivity.
Qed.

Lemma not_inf_nan_digit (c : ascii) (r : string) :
  isdigit c = true ->
  String.eqb (String c r) "inf" || String.eqb (String c r) "infinity" = false
  /\ String.eqb (String c r) "nan" = false.
Proof.
  intros H. destruct (isdigit_not_marker c H)
    as (_ & _ & _ & _ & _ & _ & _ & _ & Hi & Hn & _).
  cbn [String.eqb]. rewrite Hi, Hn. split; reflexivity.
Qed.

Lemma span_digits_all (s : string) :
  all_digits s = true -> span_digits s = (s, EmptyString).
Proof.
  induction s as [|b s IH]; simpl; [reflexivity|].
  intros H. apply andb_prop in H as [Hb Hs].
  rewrite Hb, (IH Hs). reflexivity.
Qed.

(** A token of digits with a point keeps all its characters on the way to
    [parse_number]. *)
Lemma plain_token_untouched (s : string) :
  (forall c, has_char c s = true -> isdigit c = true \/ c = "."%char) ->
  cleaned_of s = s
  /\ PyFloat.drop_underscores "000" s = Some s
  /\ rstrip_with PyFloat.isspace s = s
  /\ lower s = s.
Proof.
  intros H.
  assert (forall c, isdigit c = false -> c <> "."%char -> has_char c s = false)
    as Hno.
  { intros c Hd Hp. destruct (has_char c s) eqn:E; [|reflexivity].
    destruct (H c E) as [Hd'|Hp']; [congruence | contradiction]. }
  repeat split.
  - unfold cleaned_of.
    rewrite (remove_char_absent " " s) by (apply Hno; [reflexivity | discriminate]).
    rewrite (remove_char_absent "," s) by (apply Hno; [reflexivity | discriminate]).
    apply remove_char_absent, Hno; [reflexivity | discriminate].
  - apply drop_underscores_absent; [|reflexivity].
    apply Hno; [reflexivity | discriminate].
  - apply rstrip_with_no_space. intros c Hc.
    destruct (H c Hc) as [Hd| ->]; [|reflexivity].
    apply (isdigit_not_marker c Hd).
  - clear Hno. induction s as [|b s IH]; [reflexivity|].
    simpl. rewrite IH.
    + destruct (H b) as [Hd| ->]; [simpl; rewrite Ascii.eqb_refl; reflexivity | |reflexivity].
      destruct (isdigit_not_marker b Hd) as (_ & _ & _ & _ & _ & -> & _).
      reflexivity.
    + intros c Hc. apply H. simpl. rewrite Hc. apply orb_true_r.
Qed.

Lemma float_of_string_plain (c : ascii) (s : string) :
  isdigit c = true ->
  (forall x, has_char x (String c s) = true -> isdigit x = true \/ x = "."%char) ->
  PyFloat.float_of_string (String c s)
  = let '(ip, r1) := span_digits (String c s) in
    let '(fp, r2) :=
      match r1 with
      | String "." t => span_digits t
      | _ => (EmptyString, r1)
      end in
    let mant := String.append ip fp in
    match mant with
    | EmptyString => None
    | _ =>
        match PyFloat.parse_exponent r2 with
        | Some e =>
            Some (Float.of_decimal false (digits_val mant)
                    (e - Z.of_nat (String.length fp)))
        | None => None
        end
    end.
Proof.
  intros Hc H.
  destruct (plain_token_untouched (String c s) H) as (_ & Hu & Hr & Hl).
  unfold PyFloat.float_of_string. rewrite Hu.
  unfold strip_with.
  rewrite (lstrip_with_head PyFloat.isspace c s)
    by apply (isdigit_not_marker c Hc).
  rewrite Hr. unfold PyFloat.parse_number.
  rewrite (parse_sign_digit c s Hc), Hl.
  destruct (not_inf_nan_digit c s Hc) as [-> ->]. reflexivity.
Qed.

End DecimalTokens.

(** X2: a token of decimal digits, with or without a point and further
    digits, normalizes to the float nearest to the decimal number it
    writes: ['1234.50'] to the float nearest to 123450 / 100. *)
Theorem to_num_decimal_token :
  forall ip fp : string,
    Str.all_digits ip = true -> Str.all_digits fp = true ->
    ip <> EmptyString ->
    to_num (Some ip) = Ok (Float.of_decimal false (Str.digits_val ip) 0)
    /\ to_num (Some (String.append ip (String "." fp)))
       = Ok (Float.of_decimal false
               (Str.digits_val (String.append ip fp))
               (- Z.of_nat (String.length fp))).
Proof.
  intros ip fp Hip Hfp Hne.
  destruct ip as [|c ip]; [congruence|]. clear Hne.
  assert (Str.isdigit c = true) as Hc
    by (simpl in Hip; apply andb_prop in Hip; tauto).
  split.
  - rewrite to_num_nonempty by discriminate.
    assert (forall x, Str.has_char x (String c ip) = true ->
                      Str.isdigit x = true \/ x = "."%char) as H
      by (intros x Hx; left; exact (all_digits_has_char x _ Hip Hx)).
    destruct (plain_token_untouched _ H) as (-> & _).
    rewrite (float_of_string_plain c ip Hc H), (span_digits_all _ Hip).
    cbv zeta. rewrite string_append_nil_r. reflexivity.
  - rewrite to_num_nonempty by discriminate.
    assert (forall x, Str.has_char x (String.append (String c ip) (String "." fp)) = true ->
                      Str.isdigit x = true \/ x = "."%char) as H.
    { intros x Hx. rewrite has_char_append in Hx.
      apply orb_prop in Hx as [Hx|Hx];
        [left; exact (all_digits_has_char x _ Hip Hx)|].
      cbn [Str.has_char] in Hx. apply orb_prop in Hx as [Hx|Hx].
      - right. apply Ascii.eqb_eq in Hx. congruence.
      - left. exact (all_digits_has_char x _ Hfp Hx). }
    destruct (plain_token_untouched _ H) as (-> & _).
    change (String.append (String c ip) (String "." fp))
      with (String c (String.append ip (String "." fp))) in *.
    rewrite (float_of_string_plain c _ Hc H).
    change (String c (String.append ip (String "." fp)))
      with (String.append (String c ip) (String "." fp)).
    rewrite (span_digits_append (String c ip) (String "." fp) Hip eq_refl).
    rewrite (span_digits_all _ Hfp).
    cbn [String.append PyFloat.parse_exponent]. reflexivity.
Qed.

Lemma to_num_decimal_token_witness :
  to_num (Some "1234") = Ok (Float.of_decimal false 1234 0)
  /\ to_num (Some "1234.50") = Ok (Float.of_decimal false 123450 (-2)).
Proof.
  exact (to_num_decimal_token "1234" "50" eq_refl eq_refl
           ltac:(discriminate)).
Defined.

(* ===================================================================== *)
(** * Further properties of the statement parser                          *)
(* ===================================================================== *)

(** X3: in a row with a date, the columns the row lacks count as empty
    cells: the amounts of the absent columns 3 and 4 are 0.0, as for a
    cell that is [None], and the description of an absent column 2 is
    the empty text. *)
Theorem pdf_row_absent_columns :
  forall (headers r : row) (c : string) (dt : datetime)
         (records : list record),
    r <> headers ->
    r !! 0%nat = Some (Some c) ->
    Strptime.strptime (Str.strip c) = Some dt ->
    pdf_row headers r records
    = (money_in <- to_num (default None (r !! 3%nat)) ;;
       money_out <- to_num (default None (r !! 4%nat)) ;;
       Ok (records
             ++ [mk_record dt (default (Some "") (r !! 2%nat))
                   (Float.sub money_in money_out)])).
Proof.
  intros headers r c dt records Hne Hc Hd. unfold pdf_row.
  rewrite decide_False by exact Hne. rewrite Hc, Hd.
  unfold row, cell in *.
  assert (forall i : nat,
            (if (i <? length r)%nat then to_num (default None (r !! i))
             else Ok Float.zero)
            = to_num (default None (r !! i))) as Hnum.
  { intros i. destruct (Nat.ltb_spec i (length r)) as [Hlt|Hge];
      [reflexivity|].
    assert (r !! i = None) as -> by (apply lookup_ge_None_2; exact Hge).
    reflexivity. }
  rewrite !Hnum.
  replace (if (2 <? length r)%nat then default None (r !! 2%nat) else Some "")
    with (default (Some "") (r !! 2%nat)); [reflexivity|].
  destruct (Nat.ltb_spec 2 (length r)) as [Hlt|Hge].
  - assert (is_Some (r !! 2%nat)) as [x ->]
      by (apply lookup_lt_is_Some_2; exact Hlt).
    reflexivity.
  - assert (r !! 2%nat = None) as -> by (apply lookup_ge_None_2; exact Hge).
    reflexivity.
Qed.

Lemma pdf_row_absent_columns_witness :
  pdf_row Sample.headers [Some "05/01/2024"; Some "001"] []
  = Ok [mk_record Sample.jan5 (Some "") Float.zero]
  /\ pdf_row Sample.headers [Some "05/01/2024"; None; None; Some "7"] []
     = Ok [mk_record Sample.jan5 None (Float.of_Z 7)].
Proof.
  split.
  - rewrite (pdf_row_absent_columns Sample.headers
               [Some "05/01/2024"; Some "001"] "05/01/2024" Sample.jan5 []);
      [reflexivity | discriminate | reflexivity | reflexivity].
  - rewrite (pdf_row_absent_columns Sample.headers
               [Some "05/01/2024"; None; None; Some "7"] "05/01/2024"
               Sample.jan5 []);
      [vm_compute; reflexivity | discriminate | reflexivity | reflexivity].
Defined.

(** X4: a row that repeats the header row of its table is skipped, where
    ever it stands: the table gives the records it gives without it. *)
Theorem pdf_rows_repeated_header :
  forall (headers : row) (pre post : list row) (records : list record),
    pdf_rows headers (pre ++ headers :: post) records
    = pdf_rows headers (pre ++ post) records.
Proof.
  intros headers pre post records. rewrite !pdf_rows_app.
  destruct (pdf_rows headers pre records) as [records'|e]; simpl;
    [|reflexivity].
  unfold pdf_row. rewrite decide_True by reflexivity. reflexivity.
Qed.

Lemma pdf_row_shift (headers r : row) (records : list record) :
  pdf_row headers r records
  = (new <- pdf_row headers r [] ;; Ok (records ++ new)).
Proof.
  unfold pdf_row. destruct (decide (r = headers)); simpl;
    [rewrite app_nil_r; reflexivity|].
  destruct (r !! 0%nat) as [[c|]|]; try reflexivity.
  destruct (Strptime.strptime (Str.strip c)); simpl;
    [|rewrite app_nil_r; reflexivity].
  destruct (if (3 <? length r)%nat then _ else _); simpl; [|reflexivity].
  destruct (if (4 <? length r)%nat then _ else _); reflexivity.
Qed.

Lemma pdf_rows_shift (headers : row) (rows : list row) :
  forall records,
    pdf_rows headers rows records
    = (new <- pdf_rows headers rows [] ;; Ok (records ++ new)).
Proof.
  induction rows as [|r rows IH]; intros records; simpl.
  - rewrite app_nil_r. reflexivity.
  - rewrite (pdf_row_shift headers r records).
    destruct (pdf_row headers r []) as [new|e]; simpl; [|reflexivity].
    rewrite (IH (records ++ new)), (IH new).
    destruct (pdf_rows headers rows []) as [new'|e]; simpl; [|reflexivity].
    rewrite app_assoc. reflexivity.
Qed.

Lemma pdf_page_shift (t : option table) (records : list record) :
  pdf_page t records = (new <- pdf_page t [] ;; Ok (records ++ new)).
Proof.
  destruct t as [[|headers rows]|]; simpl;
    try (rewrite app_nil_r; reflexivity).
  apply pdf_rows_shift.
Qed.

(** X6: the records collected so far are never changed or dropped by the
    pages that follow: the pages append to them what they give on their
    own, in page and row order, or raise what they raise on their own. *)
Theorem pdf_pages_appends :
  forall (ps : list (option table)) (records : list record),
    pdf_pages ps records
    = (new <- pdf_pages ps [] ;; Ok (records ++ new)).
Proof.
  induction ps as [|t ps IH]; intros records; simpl.
  - rewrite app_nil_r. reflexivity.
  - rewrite (pdf_page_shift t records).
    destruct (pdf_page t []) as [new|e]; simpl; [|reflexivity].
    rewrite (IH (records ++ new)), (IH new).
    destruct (pdf_pages ps []) as [new'|e]; simpl; [|reflexivity].
    rewrite app_assoc. reflexivity.
Qed.

(** X5: no partial result.  When a row raises (a malformed amount, a
    missing date cell), the whole call raises that error, whatever rows
    and pages were read before it and whatever follows it. *)
Theorem pdf_row_error_is_fatal :
  forall (to_datetime : list value -> result (list value))
         (file_name : string) (before after : list (option table))
         (headers r : row) (pre post : list row) (sh : RawFrame)
         (records0 records1 : list record) (e : exn),
    is_pdf file_name = true ->
    pdf_pages before [] = Ok records0 ->
    pdf_rows headers pre records0 = Ok records1 ->
    pdf_row headers r records1 = Raise e ->
    parse_bank_statement to_datetime
      (mk_UploadedFile file_name
         (before ++ Some (headers :: pre ++ r :: post) :: after) sh)
    = Raise e.
Proof.
  intros to_datetime file_name before after headers r pre post sh
         records0 records1 e Hpdf Hb Hpre Hr.
  unfold parse_bank_statement. simpl. rewrite Hpdf.
  rewrite pdf_pages_app, Hb. cbn [bind pdf_pages pdf_page].
  rewrite pdf_rows_app, Hpre. cbn [bind pdf_rows]. rewrite Hr. reflexivity.
Qed.

Lemma pdf_row_error_is_fatal_witness :
  parse_bank_statement Sample.keep_dates
    (mk_UploadedFile "statement.pdf"
       ([Some [Sample.headers; Sample.row_sale]]
          ++ Some (Sample.headers
                     :: [Sample.row_rent]
                     ++ [Some "07/01/2024"; None; Some "Fee"; Some "12.5O"]
                     :: [Sample.row_sale])
          :: [None])
       Sample.no_sheet)
  = Raise number_format_error.
Proof.
  apply (pdf_row_error_is_fatal Sample.keep_dates "statement.pdf"
           [Some [Sample.headers; Sample.row_sale]] [None] Sample.headers
           [Some "07/01/2024"; None; Some "Fee"; Some "12.5O"]
           [Sample.row_rent] [Sample.row_sale] Sample.no_sheet
           [mk_record Sample.jan5 (Some "Sale A") (Float.of_Z 1000)]
           [mk_record Sample.jan5 (Some "Sale A") (Float.of_Z 1000);
            mk_record Sample.jan6 (Some "Rent") (Float.of_Z (-500))]);
    vm_compute; reflexivity.
Defined.

Lemma strip_labels_text (cols : list string) :
  strip_labels (map VStr cols) = Ok (map Str.strip cols).
Proof.
  induction cols as [|c cols IH]; [reflexivity|].
  cbn [map strip_labels strip_label bind]. rewrite IH. reflexivity.
Qed.

Lemma strip_labels_Ok (cs : list value) (cols : list string) :
  strip_labels cs = Ok cols ->
  cols = map (fun c => Str.strip (label_text c)) cs.
Proof.
  rewrite strip_labels_spec. destruct (first_non_text cs); [discriminate|].
  intros E. injection E as <-. reflexivity.
Qed.

Lemma positions_from_absent (key : string) (cols : list string) :
  key ∉ cols -> forall i, positions_from i cols key = [].
Proof.
  induction cols as [|c cols IH]; intros Hnot i; [reflexivity|].
  cbn [positions_from]. rewrite decide_False.
  - apply IH. intros Hin. apply Hnot. right. exact Hin.
  - intros ->. apply Hnot. left.
Qed.

Lemma positions_from_length (key : string) (cols : list string) :
  forall i,
    length (positions_from i cols key)
    = length (filter (fun c => c = key) cols).
Proof.
  induction cols as [|c cols IH]; intros i; [reflexivity|].
  cbn [positions_from]. rewrite filter_cons.
  destruct (decide (c = key)); cbn [length]; rewrite IH; reflexivity.
Qed.

Lemma positions_from_lookup (key : string) (cols : list string) :
  forall i j,
    j ∈ positions_from i cols key ->
    (i <= j)%nat /\ cols !! (j - i)%nat = Some key.
Proof.
  induction cols as [|c cols IH]; intros i j Hj; cbn [positions_from] in Hj.
  - apply elem_of_nil in Hj. contradiction.
  - assert (j ∈ positions_from (S i) cols key ->
            (i <= j)%nat /\ (c :: cols) !! (j - i)%nat = Some key) as Hrec.
    { intros H. apply IH in H as [Hle Hl]. split; [lia|].
      replace (j - i)%nat with (S (j - S i)) by lia. exact Hl. }
    destruct (decide (c = key)) as [->|Hne]; [|auto].
    apply elem_of_cons in Hj as [->|Hj]; [|auto].
    split; [lia|]. rewrite Nat.sub_diag. reflexivity.
Qed.

Lemma map_const_replicate {A B} (f : A -> B) (b : B) (l : list A) :
  (forall a, a ∈ l -> f a = b) -> map f l = replicate (length l) b.
Proof.
  induction l as [|a l IH]; intros Hf; [reflexivity|].
  cbn [map length replicate]. rewrite (Hf a) by (left). f_equal.
  apply IH. intros a' Ha'. apply Hf. right. exact Ha'.
Qed.

(** The labels of the columns selected for one key are that key. *)
Lemma label_positions_labels (cols : list string) (key : string) :
  map (fun i => default EmptyString (cols !! i)) (label_positions cols key)
  = replicate (length (filter (fun c => c = key) cols)) key.
Proof.
  unfold label_positions. rewrite <- (positions_from_length key cols 0).
  apply map_const_replicate. intros j Hj.
  apply positions_from_lookup in Hj as [_ Hl].
  rewrite Nat.sub_0_r in Hl. rewrite Hl. reflexivity.
Qed.

Lemma length_filter_map {A} (g : A -> string) (key : string) (l : list A) :
  length (filter (fun c => c = key) (map g l))
  = length (filter (fun a => g a = key) l).
Proof.
  induction l as [|a l IH]; [reflexivity|].
  cbn [map]. rewrite !filter_cons.
  destruct (decide (g a = key)); cbn [length]; rewrite IH; reflexivity.
Qed.

(** The frame that line 59 selects when no column after the third is
    labelled Date, Description or Amount. *)
Lemma select_three (later : list string) (rows : list (list value)) :
  "Date" ∉ later -> "Description" ∉ later -> "Amount" ∉ later ->
  select_columns ["Date"; "Description"; "Amount"]
    (["Date"; "Description"; "Amount"] ++ later) rows
  = mk_DataFrame ["Date"; "Description"; "Amount"]
      (map (fun r => [default VNone (r !! 0%nat); default VNone (r !! 1%nat);
                      default VNone (r !! 2%nat)]) rows).
Proof.
  intros Hd Hs Ha. unfold select_columns, label_positions.
  cbn [map app positions_from concat].
  repeat (first [rewrite decide_True by reflexivity
                |rewrite decide_False by discriminate]).
  rewrite !positions_from_absent by assumption.
  reflexivity.
Qed.

Lemma canonical_frame_shape
    (to_datetime : list value -> result (list value))
    (df : RawFrame) (out : DataFrame) :
  canonical_frame to_datetime df = Ok out ->
  exists dates,
    to_datetime (map (fun r => default VNone (r !! 0%nat)) (raw_data df))
    = Ok dates
    /\ first_non_text (raw_columns df) = None
    /\ (3 <= length (raw_columns df))%nat
    /\ ("Date" ∉ drop 3 (map (fun c => Str.strip (label_text c))
                            (raw_columns df)))
    /\ out = select_columns ["Date"; "Description"; "Amount"]
               (["Date"; "Description"; "Amount"]
                ++ drop 3 (map (fun c => Str.strip (label_text c))
                             (raw_columns df)))
               (zip_with (fun d r => d :: drop 1 r) dates (raw_data df)).
Proof.
  unfold canonical_frame. rewrite strip_labels_spec.
  destruct (first_non_text (raw_columns df)); [discriminate|].
  cbn [bind]. rewrite length_map.
  destruct (Nat.ltb_spec (length (raw_columns df)) 3) as [Hlt|Hge];
    [discriminate|].
  case_decide as Hdate; [discriminate|].
  destruct (to_datetime _) as [dates|e]; simpl; [|discriminate].
  intros E. injection E as <-. exists dates. repeat split; assumption.
Qed.

(** X7: whatever the file, a call that returns gives a frame whose
    columns are selected by label: Date once, then Description once for
    the second column and once more for each later column of that
    label, then Amount likewise, and every row has one cell per column.
    The frame of a PDF has three columns. *)
Theorem parse_bank_statement_columns :
  forall (to_datetime : list value -> result (list value))
         (f : UploadedFile) (df : DataFrame),
    parse_bank_statement to_datetime f = Ok df ->
    let later :=
      if is_pdf (name f) then [] else drop 3 (raw_columns (sheet f)) in
    let count :=
      fun key : string =>
        length (filter (fun c => Str.strip (label_text c) = key) later) in
    columns df
    = "Date" :: (replicate (S (count "Description")) "Description"
                 ++ replicate (S (count "Amount")) "Amount")
    /\ count "Date" = 0%nat
    /\ Forall (fun r => length r = length (columns df)) (data df).
Proof.
  intros to_datetime f df H later count.
  assert (exists raw : RawFrame,
             canonical_frame to_datetime raw = Ok df
             /\ later = drop 3 (raw_columns raw)) as (raw & Hc & Hl).
  { unfold parse_bank_statement in H. unfold later.
    destruct (is_pdf (name f)).
    - destruct (pdf_pages (pages f) []) as [[|rec records]|e];
        [discriminate H| |discriminate H].
      eexists. split; [exact H|reflexivity].
    - eexists. split; [exact H|reflexivity]. }
  apply canonical_frame_shape in Hc as (dates & _ & _ & Hlen & Hdate & ->).
  rewrite List.skipn_map in Hdate |- *. rewrite <- Hl in Hdate |- *.
  set (g := fun c => Str.strip (label_text c)) in *.
  assert (forall key, length (filter (fun c => c = key) (map g later))
                      = count key) as Hcount.
  { intros key. apply length_filter_map. }
  assert (count "Date" = 0%nat) as Hzero.
  { rewrite <- Hcount. destruct (filter _ (map g later)) as [|c l] eqn:E;
      [reflexivity|]. exfalso. apply Hdate.
    assert (c ∈ filter (fun c => c = "Date") (map g later)) as Hin
      by (rewrite E; left).
    apply list_elem_of_filter in Hin as [-> Hin]. exact Hin. }
  assert (columns
            (select_columns ["Date"; "Description"; "Amount"]
               (["Date"; "Description"; "Amount"] ++ map g later)
               (zip_with (fun d r => d :: drop 1 r) dates (raw_data raw)))
          = "Date" :: (replicate (S (count "Description")) "Description"
                       ++ replicate (S (count "Amount")) "Amount")) as Hcols.
  { unfold select_columns. cbn [columns map concat].
    rewrite app_nil_r, !map_app, !label_positions_labels.
    cbn [app]. rewrite !filter_cons.
    repeat (first [rewrite decide_True by reflexivity
                  |rewrite decide_False by discriminate]).
    cbn [length]. rewrite !Hcount, Hzero. reflexivity. }
  split; [exact Hcols|]. split; [exact Hzero|].
  rewrite Hcols. unfold select_columns. cbn [data].
  apply Forall_forall. intros r Hr.
  apply list_elem_of_In, in_map_iff in Hr as (r0 & <- & _).
  rewrite length_map. rewrite <- Hcols. unfold select_columns.
  cbn [columns]. rewrite length_map. reflexivity.
Qed.

(** A sheet whose fourth header strips to Amount gives four columns. *)
Lemma parse_bank_statement_columns_witness :
  columns
    (mk_DataFrame ["Date"; "Description"; "Amount"; "Amount"]
       [[VStr "05/01/2024"; VStr "Sale A"; VFloat (Float.of_Z 1000);
         VFloat (Float.of_Z 2000)]])
  = ["Date"; "Description"; "Amount"; "Amount"]
  /\ 0%nat = 0%nat
  /\ Forall (fun r => length r = 4%nat)
       [[VStr "05/01/2024"; VStr "Sale A"; VFloat (Float.of_Z 1000);
         VFloat (Float.of_Z 2000)]].
Proof.
  apply (parse_bank_statement_columns Sample.keep_dates
           (mk_UploadedFile "bank.xlsx" []
              (mk_RawFrame
                 [VStr "Posted "; VStr "Memo"; VStr " Value"; VStr "Amount "]
                 [[VStr "05/01/2024"; VStr "Sale A";
                   VFloat (Float.of_Z 1000); VFloat (Float.of_Z 2000)]]))).
  vm_compute. reflexivity.
Defined.

(** X8: on the spreadsheet path, with three text headers or more of
    which none after the third strips to Date, Description or Amount,
    neither the texts of the headers nor the columns after the third
    have any influence: the call gives what it gives for the first three
    cells of each row under any three text headers. *)
Theorem spreadsheet_headers_and_extra_columns :
  forall (to_datetime : list value -> result (list value))
         (file_name file_name' : string) (ps ps' : list (option table))
         (cols cols' : list string) (rows : list (list value)),
    is_pdf file_name = false -> is_pdf file_name' = false ->
    (3 <= length cols)%nat -> length cols' = 3%nat ->
    (forall c : string,
       c ∈ drop 3 cols ->
       Str.strip c <> "Date" /\ Str.strip c <> "Description"
       /\ Str.strip c <> "Amount") ->
    parse_bank_statement to_datetime
      (mk_UploadedFile file_name ps (mk_RawFrame (map VStr cols) rows))
    = parse_bank_statement to_datetime
        (mk_UploadedFile file_name' ps'
           (mk_RawFrame (map VStr cols') (map (take 3) rows))).
Proof.
  intros to_datetime file_name file_name' ps ps' cols cols' rows
         Hn Hn' Hc Hc' Hlater.
  unfold parse_bank_statement. simpl. rewrite Hn, Hn'. simpl.
  unfold canonical_frame. cbn [raw_columns raw_data].
  rewrite !strip_labels_text. cbn [bind]. rewrite !length_map.
  destruct (Nat.ltb_spec (length cols) 3); [lia|].
  destruct (Nat.ltb_spec (length cols') 3); [lia|].
  assert (drop 3 (map Str.strip cols') = []) as ->.
  { apply drop_ge. rewrite length_map. lia. }
  assert (forall key : string,
             key ∈ ["Date"; "Description"; "Amount"] ->
             key ∉ drop 3 (map Str.strip cols)) as Hnot.
  { intros key Hkey Hin. rewrite List.skipn_map in Hin.
    apply list_elem_of_In, in_map_iff in Hin as (c & Hs & Hin).
    apply list_elem_of_In, Hlater in Hin as (H1 & H2 & H3).
    repeat (apply elem_of_cons in Hkey as [->|Hkey]; [congruence|]).
    apply elem_of_nil in Hkey. exact Hkey. }
  assert ("Date" ∉ drop 3 (map Str.strip cols)) as HD
    by (apply Hnot; repeat constructor).
  assert ("Description" ∉ drop 3 (map Str.strip cols)) as HS
    by (apply Hnot; repeat constructor).
  assert ("Amount" ∉ drop 3 (map Str.strip cols)) as HA
    by (apply Hnot; repeat constructor).
  rewrite (decide_False (P := "Date" ∈ drop 3 (map Str.strip cols))) by exact HD.
  rewrite (decide_False (P := "Date" ∈ [])) by (apply not_elem_of_nil).
  rewrite map_map.
  rewrite (map_ext (fun r => default VNone (take 3 r !! 0%nat))
                   (fun r => default VNone (r !! 0%nat)))
    by (intros [|a r]; reflexivity).
  destruct (to_datetime _) as [dates|e]; simpl; [|reflexivity].
  rewrite (select_three (drop 3 (map Str.strip cols))) by assumption.
  rewrite (select_three []) by (apply not_elem_of_nil).
  f_equal. f_equal.
  generalize rows. clear.
  induction dates as [|d dates IH]; intros [|r rows]; try reflexivity.
  cbn [map zip_with]. rewrite IH. f_equal.
  destruct r as [|a [|b [|c r]]]; reflexivity.
Qed.

Lemma spreadsheet_headers_and_extra_columns_witness :
  parse_bank_statement Sample.keep_dates
    (mk_UploadedFile "bank.xlsx" []
       (mk_RawFrame (map VStr ["Posted "; "Memo"; " Value"; "Balance"])
          [[VStr "05/01/2024"; VStr "Sale A"; VFloat (Float.of_Z 1000);
            VFloat (Float.of_Z 1000)]]))
  = parse_bank_statement Sample.keep_dates
      (mk_UploadedFile "export.xls" []
         (mk_RawFrame (map VStr ["Date"; "Description"; "Amount"])
            (map (take 3)
               [[VStr "05/01/2024"; VStr "Sale A"; VFloat (Float.of_Z 1000);
                 VFloat (Float.of_Z 1000)]]))).
Proof.
  apply (spreadsheet_headers_and_extra_columns Sample.keep_dates
           "bank.xlsx" "export.xls" [] []
           ["Posted "; "Memo"; " Value"; "Balance"]
           ["Date"; "Description"; "Amount"]
           [[VStr "05/01/2024"; VStr "Sale A"; VFloat (Float.of_Z 1000);
             VFloat (Float.of_Z 1000)]]);
    try reflexivity; [simpl; lia|].
  intros c Hc. cbn [drop] in Hc.
  apply list_elem_of_singleton in Hc as ->.
  vm_compute. repeat split; discriminate.
Defined.

(** The frame tail on the frame of the records of a PDF. *)
Lemma canonical_frame_records
    (to_datetime : list value -> result (list value))
    (rec : record) (records : list record) :
  canonical_frame to_datetime (DataFrame_of_records (rec :: records))
  = (dates <- to_datetime (map (fun r => VDate (Date r)) (rec :: records)) ;;
     Ok (mk_DataFrame ["Date"; "Description"; "Amount"]
           (zip_with
              (fun d r => [d; value_of_cell (Description r); VFloat (Amount r)])
              dates (rec :: records)))).
Proof.
  unfold canonical_frame, DataFrame_of_records. cbn [raw_columns raw_data].
  assert (strip_labels [VStr "Date"; VStr "Description"; VStr "Amount"]
          = Ok ["Date"; "Description"; "Amount"]) as ->
    by (vm_compute; reflexivity).
  cbn [bind length Nat.ltb Nat.leb drop].
  rewrite (decide_False (P := "Date" ∈ [])) by (apply not_elem_of_nil).
  replace (map (fun r : list value => default VNone (r !! 0%nat))
             (map (fun r : record =>
                     [VDate (Date r); value_of_cell (Description r);
                      VFloat (Amount r)]) (rec :: records)))
    with (map (fun r => VDate (Date r)) (rec :: records))
    by (rewrite map_map; reflexivity).
  destruct (to_datetime _) as [dates|e]; [|reflexivity].
  cbn [bind]. rewrite (select_three []) by (apply not_elem_of_nil).
  f_equal. f_equal.
  revert dates.
  induction (rec :: records) as [|r rs IH]; intros [|d dates];
    try reflexivity.
  cbn [map zip_with]. rewrite IH. reflexivity.
Qed.

(** X9: a PDF call that returns has read at least one record, and returns
    one row per record, when [pd.to_datetime] gives one date per cell of
    the column. *)
Theorem pdf_result_has_rows :
  forall (to_datetime : list value -> result (list value))
         (f : UploadedFile) (df : DataFrame),
    (forall column dates,
       to_datetime column = Ok dates -> length dates = length column) ->
    is_pdf (name f) = true ->
    parse_bank_statement to_datetime f = Ok df ->
    exists records : list record,
      pdf_pages (pages f) [] = Ok records
      /\ records <> []
      /\ length (data df) = length records.
Proof.
  intros to_datetime f df Hlen Hpdf. unfold parse_bank_statement.
  rewrite Hpdf. destruct (pdf_pages (pages f) []) as [records|e]; simpl;
    [|discriminate].
  intros H. exists records. split; [reflexivity|].
  destruct records as [|rec records]; [discriminate H|].
  split; [discriminate|].
  rewrite canonical_frame_records in H.
  destruct (to_datetime _) as [dates|e] eqn:Hd; [|discriminate H].
  injection H as <-. apply Hlen in Hd. cbn [data].
  rewrite length_map in Hd. rewrite length_zip_with. lia.
Qed.

Lemma pdf_result_has_rows_witness :
  exists records : list record,
    pdf_pages (pages (Sample.statement [Sample.row_sale; Sample.row_rent])) []
    = Ok records
    /\ records <> []
    /\ length
         [[VDate Sample.jan5; VStr "Sale A"; VFloat (Float.of_Z 1000)];
          [VDate Sample.jan6; VStr "Rent"; VFloat (Float.of_Z (-500))]]
       = length records.
Proof.
  apply (pdf_result_has_rows Sample.keep_dates
           (Sample.statement [Sample.row_sale; Sample.row_rent])
           (mk_DataFrame ["Date"; "Description"; "Amount"]
              [[VDate Sample.jan5; VStr "Sale A"; VFloat (Float.of_Z 1000)];
               [VDate Sample.jan6; VStr "Rent"; VFloat (Float.of_Z (-500))]])).
  - intros column dates E. injection E as <-. reflexivity.
  - reflexivity.
  - vm_compute. reflexivity.
Defined.

Section SuffixFacts.
Import Str.

Lemma string_length_append (a b : string) :
  String.length (String.append a b)
  = (String.length a + String.length b)%nat.
Proof.
  induction a as [|c a IH]; [reflexivity|].
  change (S (String.length (String.append a b))
          = S (String.length a + String.length b)).
  rewrite IH. reflexivity.
Qed.

Lemma length_lower (s : string) : String.length (lower s) = String.length s.
Proof. induction s as [|c s IH]; simpl; [|rewrite IH]; reflexivity. Qed.

Lemma substring_skip (p s : string) (k : nat) :
  String.substring (String.length p) k (String.append p s)
  = String.substring 0 k s.
Proof.
  induction p as [|c p IH]; [reflexivity|].
  change (String.substring (String.length p) k (String.append p s)
          = String.substring 0 k s).
  exact IH.
Qed.

Lemma substring_0_all (s : string) :
  forall k, (String.length s <= k)%nat -> String.substring 0 k s = s.
Proof.
  induction s as [|c s IH]; intros [|k] H; simpl in *; try reflexivity;
    [lia|].
  rewrite IH by lia. reflexivity.
Qed.

Lemma string_split_at (i : nat) :
  forall s, (i <= String.length s)%nat ->
  exists p q, s = String.append p q /\ String.length p = i.
Proof.
  induction i as [|i IH]; intros s H.
  - exists EmptyString, s. split; reflexivity.
  - destruct s as [|c s]; simpl in H; [lia|].
    destruct (IH s) as (p & q & -> & Hp); [lia|].
    exists (String c p), q. split; [reflexivity | simpl; lia].
Qed.

End SuffixFacts.

(** X10: a file takes the PDF path exactly when its name ends in [.pdf],
    the case of these letters ignored; every other name takes the
    spreadsheet path. *)
Theorem is_pdf_extension :
  forall file_name : string,
    is_pdf file_name = true
    <-> exists base ext : string,
          file_name = String.append base ext /\ Str.lower ext = ".pdf".
Proof.
  intros file_name. unfold is_pdf. rewrite String.eqb_eq. split.
  - intros H.
    destruct (string_split_at
                (String.length (Str.lower file_name) - 4)
                (Str.lower file_name)) as (p & q & Hl & Hp); [lia|].
    rewrite Hl in H at 2. rewrite <- Hp in H. rewrite substring_skip in H.
    assert (String.length q <= 4)%nat as Hq.
    { apply (f_equal String.length) in Hl.
      rewrite string_length_append in Hl. lia. }
    rewrite (substring_0_all q 4 Hq) in H. subst q.
    destruct (lower_split _ _ _ Hl) as (a & b & -> & _ & Hb).
    exists a, b. split; [reflexivity | exact Hb].
  - intros (base & ext & -> & Hext).
    rewrite lower_append, Hext, string_length_append.
    replace (String.length (Str.lower base) + String.length ".pdf" - 4)%nat
      with (String.length (Str.lower base)) by (simpl; lia).
    rewrite substring_skip. reflexivity.
Qed.

(* ===================================================================== *)
(** * Further properties of the VAT computation                           *)
(* ===================================================================== *)

Section SignFacts.

Lemma binary_round_aux_opp (s : bool) (m e : Z) (l : location) :
  binary_round_aux Float.prec Float.emax (negb s) m e l
  = SFopp (binary_round_aux Float.prec Float.emax s m e l).
Proof.
  unfold binary_round_aux.
  destruct (shr_fexp Float.prec Float.emax m e l) as [mrs' e'].
  destruct (shr_fexp Float.prec Float.emax _ e' loc_Exact) as [mrs'' e''].
  destruct (shr_m mrs''); try reflexivity.
  destruct (e'' <=? Float.emax - Float.prec); reflexivity.
Qed.

Lemma mul_opp_l (x y : float) :
  Float.mul (Float.neg x) y = Float.neg (Float.mul x y).
Proof.
  destruct x as [sx|sx| |sx mx ex], y as [sy|sy| |sy my ey];
    try reflexivity; cbn [Float.mul Float.neg SFmul SFopp];
    rewrite <- ?negb_xorb_l; try reflexivity.
  exact (binary_round_aux_opp _ _ _ _).
Qed.

Lemma div_opp_l (x y : float) :
  Float.div (Float.neg x) y = Float.neg (Float.div x y).
Proof.
  destruct x as [sx|sx| |sx mx ex], y as [sy|sy| |sy my ey];
    try reflexivity; cbn [Float.div Float.neg SFdiv SFopp];
    rewrite <- ?negb_xorb_l; try reflexivity.
  destruct (SFdiv_core_binary Float.prec Float.emax (Z.pos mx) ex (Z.pos my) ey)
    as [[mz ez] lz].
  exact (binary_round_aux_opp _ _ _ _).
Qed.

Lemma round2_opp (x : float) :
  Float.round2 (Float.neg x) = Float.neg (Float.round2 x).
Proof.
  destruct x as [sx|sx| |sx mx ex]; try reflexivity.
  cbn [Float.round2 Float.neg SFopp].
  destruct (0 <=? ex); [reflexivity|].
  destruct (Float.rne_shift (Z.pos mx * 100) (- ex)); try reflexivity.
  apply (div_opp_l (S754_finite sx p 0)).
Qed.

End SignFacts.

(** X11: the VAT of the opposite amount is the opposite VAT, for every
    float: a refund of an amount carries exactly the negated VAT of a
    sale of that amount. *)
Theorem calculate_vat_opposite :
  forall amount : float,
    calculate_vat (Float.neg amount) = Float.neg (calculate_vat amount).
Proof.
  intros amount. unfold calculate_vat.
  rewrite mul_opp_l, div_opp_l, round2_opp. reflexivity.
Qed.

(* ===================================================================== *)
(** * Further properties of the ledger and of the trial balance           *)
(* ===================================================================== *)

Section PostAndBalance.
Context {num : Type} `{Arith num}.

Lemma trial_balance_Ok_inv (ledger : Ledger num)
    (tb : list (TrialBalanceRow num)) :
  trial_balance ledger = Ok tb ->
  tb = map (trial_balance_row (entries ledger)) (group_keys (entries ledger)).
Proof.
  unfold trial_balance, to_dataframe.
  destruct (entries ledger); [discriminate|]. intros E. injection E as <-.
  reflexivity.
Qed.

Lemma elem_of_trial_balance (df : list (LedgerEntry num))
    (r : TrialBalanceRow num) :
  r ∈ map (trial_balance_row df) (group_keys df)
  <-> r = trial_balance_row df (tb_Account r)
      /\ tb_Account r ∈ map le_Account df.
Proof.
  rewrite list_elem_of_In, in_map_iff. split.
  - intros (k & <- & Hk). split; [reflexivity|].
    apply elem_of_group_keys, list_elem_of_In, Hk.
  - intros (Hr & Hk). exists (tb_Account r). split; [symmetry; exact Hr|].
    apply list_elem_of_In, elem_of_group_keys, Hk.
Qed.

Lemma group_post (df : list (LedgerEntry num)) (e : LedgerEntry num)
    (k : string) :
  group (df ++ [e]) k
  = if decide (le_Account e = k) then group df k ++ [e] else group df k.
Proof.
  unfold group. rewrite filter_app.
  change (filter (fun e0 => le_Account e0 = k) [e])
    with (if decide (le_Account e = k) then [e] else []).
  destruct (decide (le_Account e = k)); [reflexivity | apply app_nil_r].
Qed.

Lemma trial_balance_row_other (df : list (LedgerEntry num))
    (e : LedgerEntry num) (k : string) :
  k <> le_Account e ->
  trial_balance_row (df ++ [e]) k = trial_balance_row df k.
Proof.
  intros Hk. unfold trial_balance_row. rewrite group_post.
  rewrite decide_False by congruence. reflexivity.
Qed.

(** X12: posting to an account leaves the trial-balance rows of all other
    accounts as they were: a row of another account is in the trial
    balance after the posting exactly when it was in it before. *)
Theorem post_leaves_other_accounts :
  forall (ledger : Ledger num) (date : datetime) (account : string)
         (debit credit : num) (narrative : cell)
         (tb tb' : list (TrialBalanceRow num)),
    trial_balance ledger = Ok tb ->
    trial_balance (post ledger date account debit credit narrative) = Ok tb' ->
    forall r : TrialBalanceRow num,
      tb_Account r <> account -> (r ∈ tb <-> r ∈ tb').
Proof.
  intros ledger date account debit credit narrative tb tb' Htb Htb' r Hr.
  apply trial_balance_Ok_inv in Htb, Htb'. subst tb tb'.
  cbn [post entries] in *.
  rewrite !elem_of_trial_balance.
  rewrite (trial_balance_row_other (entries ledger)
             (mk_LedgerEntry date account debit credit narrative)
             (tb_Account r) Hr).
  rewrite map_app, elem_of_app. cbn [map le_Account].
  rewrite list_elem_of_singleton. tauto.
Qed.

Lemma group_keys_Permutation (df df' : list (LedgerEntry num)) :
  df ≡ₚ df' -> group_keys df = group_keys df'.
Proof.
  intros Hp. apply (Sorted_unique String.le);
    try apply group_keys_Sorted.
  unfold group_keys. rewrite !merge_sort_Permutation.
  apply NoDup_Permutation; try apply NoDup_remove_dups.
  intros k. rewrite !elem_of_remove_dups.
  rewrite !list_elem_of_In, !in_map_iff.
  split; intros (e & He & Hin); exists e; (split; [exact He|]);
    apply list_elem_of_In; [rewrite <- Hp | rewrite Hp];
    apply list_elem_of_In, Hin.
Qed.

(** X14: the rows of the trial balance come in increasing order of
    account name, and the Account column does not depend on the order in
    which the entries were posted. *)
Theorem trial_balance_accounts_sorted :
  forall (ledger ledger' : Ledger num) (tb tb' : list (TrialBalanceRow num)),
    entries ledger ≡ₚ entries ledger' ->
    trial_balance ledger = Ok tb ->
    trial_balance ledger' = Ok tb' ->
    Sorted String.le (map tb_Account tb)
    /\ map tb_Account tb = map tb_Account tb'.
Proof.
  intros ledger ledger' tb tb' Hp Htb Htb'.
  apply trial_balance_Ok_inv in Htb, Htb'. subst tb tb'.
  rewrite !trial_balance_accounts. split; [apply group_keys_Sorted|].
  apply group_keys_Permutation, Hp.
Qed.

End PostAndBalance.

Lemma post_leaves_other_accounts_witness :
  exists tb tb' : list (TrialBalanceRow float),
    trial_balance Sample.ledger_books = Ok tb
    /\ trial_balance
         (post Sample.ledger_books Sample.jan6 "Sales" (Float.of_Z 100)
               Float.zero (Some "Sale C"))
       = Ok tb'
    /\ (mk_TrialBalanceRow "Expenses" Float.zero (Float.of_Z 500)
          (Float.of_Z (-500)) ∈ tb
        <-> mk_TrialBalanceRow "Expenses" Float.zero (Float.of_Z 500)
              (Float.of_Z (-500)) ∈ tb').
Proof.
  eexists _, _. split; [vm_compute; reflexivity|].
  split; [vm_compute; reflexivity|].
  apply (post_leaves_other_accounts Sample.ledger_books Sample.jan6 "Sales"
           (Float.of_Z 100) Float.zero (Some "Sale C"));
    [vm_compute; reflexivity | vm_compute; reflexivity | discriminate].
Defined.

Lemma trial_balance_accounts_sorted_witness :
  exists tb tb' : list (TrialBalanceRow float),
    trial_balance (mk_Ledger (rev (entries Sample.ledger_books))) = Ok tb
    /\ trial_balance Sample.ledger_books = Ok tb'
    /\ Sorted String.le (map tb_Account tb)
    /\ map tb_Account tb = map tb_Account tb'.
Proof.
  eexists _, _. split; [vm_compute; reflexivity|].
  split; [vm_compute; reflexivity|].
  apply (trial_balance_accounts_sorted
           (mk_Ledger (rev (entries Sample.ledger_books)))
           Sample.ledger_books);
    [symmetry; apply Permutation_rev | vm_compute; reflexivity
     | vm_compute; reflexivity].
Defined.

(* ===================================================================== *)
(** * Properties of [classify_transactions]                               *)
(* ===================================================================== *)

Section ClassifierFacts.
Variable chat : nat -> list value -> result string.

Lemma classify_rows_shift (rows : list (list value)) :
  forall n acc,
    classify_rows chat n rows acc
    = (labels <- classify_rows chat n rows [] ;; Ok (acc ++ labels)).
Proof.
  induction rows as [|r rows IH]; intros n acc; simpl.
  - rewrite app_nil_r. reflexivity.
  - destruct (chat n r) as [content|e]; simpl; [|reflexivity].
    rewrite (IH (S n) (acc ++ [Str.strip content])),
            (IH (S n) [Str.strip content]).
    destruct (classify_rows chat (S n) rows []) as [labels|e]; simpl;
      [|reflexivity].
    rewrite <- app_assoc. reflexivity.
Qed.

Lemma classify_rows_Ok (rows : list (list value)) :
  forall n labels,
    classify_rows chat n rows [] = Ok labels ->
    length labels = length rows
    /\ forall (i : nat) (r : list value),
         rows !! i = Some r ->
         exists content,
           chat (n + i)%nat r = Ok content
           /\ labels !! i = Some (Str.strip content).
Proof.
  induction rows as [|r rows IH]; intros n labels; simpl.
  - intros E. injection E as <-. split; [reflexivity|].
    intros i r Hi. discriminate Hi.
  - destruct (chat n r) as [content|e] eqn:Hc; simpl; [|discriminate].
    rewrite classify_rows_shift.
    destruct (classify_rows chat (S n) rows []) as [labels'|e] eqn:Hr;
      simpl; [|discriminate].
    intros E. injection E as <-.
    destruct (IH (S n) labels' Hr) as [Hlen Hrows].
    split; [simpl; rewrite Hlen; reflexivity|].
    intros [|i] r' Hi; simpl in Hi.
    + injection Hi as <-. exists content.
      rewrite Nat.add_0_r. split; [exact Hc | reflexivity].
    + destruct (Hrows i r' Hi) as (content' & Hc' & Hl').
      exists content'. rewrite Nat.add_succ_r. split; assumption.
Qed.

(** X17: a classification that returns keeps every row in its place and
    adds to the row number [i] the stripped answer of the call number
    [i], made for that row: one label per row, in row order, as the
    last column, named GL Account. *)
Theorem classify_transactions_labels :
  forall df out : DataFrame,
    classify_transactions chat df = Ok out ->
    columns out = columns df ++ ["GL Account"]
    /\ length (data out) = length (data df)
    /\ forall (i : nat) (r : list value),
         data df !! i = Some r ->
         exists content : string,
           chat i r = Ok content
           /\ data out !! i = Some (r ++ [VStr (Str.strip content)]).
Proof.
  intros df out. unfold classify_transactions.
  destruct (classify_rows chat 0 (data df) []) as [labels|e] eqn:Hr; simpl;
    [|discriminate].
  intros E. injection E as <-. cbn [columns data].
  destruct (classify_rows_Ok _ _ _ Hr) as [Hlen Hrows].
  split; [reflexivity|]. split.
  - rewrite length_zip_with. lia.
  - intros i r Hi. destruct (Hrows i r Hi) as (content & Hc & Hl).
    exists content. split; [exact Hc|].
    rewrite lookup_zip_with, Hi, Hl. reflexivity.
Qed.

(** X18: the first call that raises ends the classification with its
    error: the labels obtained for the rows before it are not
    returned. *)
Theorem classify_transactions_first_error :
  forall (df : DataFrame) (before after : list (list value))
         (r : list value) (e : exn),
    data df = before ++ r :: after ->
    (forall (j : nat) (r' : list value),
       before !! j = Some r' -> exists content, chat j r' = Ok content) ->
    chat (length before) r = Raise e ->
    classify_transactions chat df = Raise e.
Proof.
  intros df before after r e Hdata Hbefore Hr.
  unfold classify_transactions. rewrite Hdata.
  assert (forall n acc,
            (forall j r', before !! j = Some r' ->
                          exists content, chat (n + j)%nat r' = Ok content) ->
            chat (n + length before)%nat r = Raise e ->
            classify_rows chat n (before ++ r :: after) acc = Raise e) as Hgen.
  { clear. induction before as [|r0 before IH]; intros n acc Hb Hr; simpl.
    - rewrite Nat.add_0_r in Hr. rewrite Hr. reflexivity.
    - destruct (Hb 0%nat r0 eq_refl) as (content & Hc).
      rewrite Nat.add_0_r in Hc. rewrite Hc. simpl.
      apply IH.
      + intros j r' Hj. destruct (Hb (S j) r' Hj) as (c' & Hc').
        exists c'. rewrite Nat.add_succ_comm. exact Hc'.
      + rewrite Nat.add_succ_comm. exact Hr. }
  rewrite (Hgen 0%nat []); [reflexivity | exact Hbefore | exact Hr].
Qed.

End ClassifierFacts.

Lemma classify_transactions_labels_witness :
  columns
    (mk_DataFrame ["Date"; "Description"; "Amount"; "GL Account"]
       [[VDate Sample.jan5; VStr "Sale A"; VFloat (Float.of_Z 1000);
         VStr "Sales"]])
  = ["Date"; "Description"; "Amount"] ++ ["GL Account"].
Proof.
  apply (classify_transactions_labels
           (fun _ _ => Ok "  Sales ")
           (mk_DataFrame ["Date"; "Description"; "Amount"]
              [[VDate Sample.jan5; VStr "Sale A"; VFloat (Float.of_Z 1000)]])).
  vm_compute. reflexivity.
Defined.

Lemma classify_transactions_first_error_witness :
  classify_transactions
    (fun n _ => if (n =? 1)%nat then Raise (OtherError "rate limit")
                else Ok "Sales")
    (mk_DataFrame ["Date"; "Description"; "Amount"]
       [[VDate Sample.jan5; VStr "Sale A"; VFloat (Float.of_Z 1000)];
        [VDate Sample.jan6; VStr "Rent"; VFloat (Float.of_Z (-500))];
        [VDate Sample.jan6; VStr "Sale B"; VFloat (Float.of_Z 25)]])
  = Raise (OtherError "rate limit").
Proof.
  apply (classify_transactions_first_error _ _
           [[VDate Sample.jan5; VStr "Sale A"; VFloat (Float.of_Z 1000)]]
           [[VDate Sample.jan6; VStr "Sale B"; VFloat (Float.of_Z 25)]]
           [VDate Sample.jan6; VStr "Rent"; VFloat (Float.of_Z (-500))]).
  - reflexivity.
  - intros [|j] r' Hj; [|discriminate Hj]. exists "Sales". reflexivity.
  - reflexivity.
Defined.

Section StripFacts.
Import Str.
Variable sp : ascii -> bool.

Lemma lstrip_with_cases (s : string) :
  lstrip_with sp s = EmptyString
  \/ exists c t, lstrip_with sp s = String c t /\ sp c = false.
Proof.
  induction s as [|c s IH]; simpl; [left; reflexivity|].
  destruct (sp c) eqn:E; [exact IH|]. right. eauto.
Qed.

Lemma rstrip_with_idempotent (s : string) :
  rstrip_with sp (rstrip_with sp s) = rstrip_with sp s.
Proof.
  induction s as [|c s IH]; [reflexivity|].
  cbn [rstrip_with].
  destruct (rstrip_with sp s) as [|d t] eqn:E.
  - destruct (sp c) eqn:Ec; [reflexivity|].
    cbn [rstrip_with]. rewrite Ec. reflexivity.
  - cbn [rstrip_with]. cbn [rstrip_with] in IH.
    destruct (rstrip_with sp t) as [|d' t'] eqn:Et.
    + destruct (sp d); [discriminate IH|]. rewrite IH. reflexivity.
    + rewrite IH. reflexivity.
Qed.

Lemma strip_with_idempotent (s : string) :
  strip_with sp (strip_with sp s) = strip_with sp s.
Proof.
  unfold strip_with.
  destruct (lstrip_with_cases s) as [->|(c & t & -> & Hc)]; [reflexivity|].
  destruct (rstrip_keeps_head sp c t Hc) as [u Hu].
  rewrite Hu, (lstrip_with_head sp c u Hc), <- Hu.
  apply rstrip_with_idempotent.
Qed.

End StripFacts.

(** X19: every label that the classification stores is free of
    surrounding whitespace: stripping it again changes nothing. *)
Theorem classify_transactions_labels_stripped :
  forall (chat : nat -> list value -> result string) (df out : DataFrame),
    classify_transactions chat df = Ok out ->
    Forall (fun r => exists (r0 : list value) (label : string),
                       r = r0 ++ [VStr label] /\ Str.strip label = label)
           (data out).
Proof.
  intros chat df out. unfold classify_transactions.
  destruct (classify_rows chat 0 (data df) []) as [labels|e] eqn:Hr; simpl;
    [|discriminate].
  intros E. injection E as <-. cbn [data].
  destruct (classify_rows_Ok chat _ _ _ Hr) as [_ Hrows].
  apply Forall_lookup. intros i r Hi.
  apply lookup_zip_with_Some in Hi as (r0 & label & -> & Hr0 & Hl).
  exists r0, label. split; [reflexivity|].
  destruct (Hrows i r0 Hr0) as (content & _ & Hl').
  rewrite Hl in Hl'. injection Hl' as ->.
  apply strip_with_idempotent.
Qed.

Lemma classify_transactions_labels_stripped_witness :
  Forall (fun r => exists (r0 : list value) (label : string),
                     r = r0 ++ [VStr label] /\ Str.strip label = label)
    [[VDate Sample.jan5; VStr "Sale A"; VFloat (Float.of_Z 1000);
      VStr "Sales"]].
Proof.
  apply (classify_transactions_labels_stripped
           (fun _ _ => Ok "  Sales  ")
           (mk_DataFrame ["Date"; "Description"; "Amount"]
              [[VDate Sample.jan5; VStr "Sale A"; VFloat (Float.of_Z 1000)]])
           (mk_DataFrame ["Date"; "Description"; "Amount"; "GL Account"]
              [[VDate Sample.jan5; VStr "Sale A"; VFloat (Float.of_Z 1000);
                VStr "Sales"]])).
  vm_compute. reflexivity.
Defined.

(* ===================================================================== *)
(** * Further properties of the VAT stage                                 *)
(* ===================================================================== *)

Lemma filter_filter_implied {A} (f g : A -> bool) (l : list A) :
  (forall x, f x = true -> g x = true) ->
  List.filter f (List.filter g l) = List.filter f l.
Proof.
  intros Hfg. induction l as [|x l IH]; [reflexivity|].
  cbn [List.filter]. destruct (g x) eqn:Eg.
  - cbn [List.filter]. rewrite IH. reflexivity.
  - rewrite IH. destruct (f x) eqn:Ef; [|reflexivity].
    rewrite (Hfg x Ef) in Eg. discriminate.
Qed.

(** X20: the VAT figures depend only on the rows whose account name holds
    one of the four words: the rows of all other accounts can be taken
    out of the trial balance without changing any figure. *)
Theorem vat_stage_other_accounts :
  forall (series_sum : list float -> float)
         (tb : list (TrialBalanceRow float)),
    vat_stage series_sum
      (List.filter
         (fun r => str_contains ["Sales"; "Revenue"; "Expenses"; "Purchases"]
                     (tb_Account r)) tb)
    = vat_stage series_sum tb.
Proof.
  intros series_sum tb. unfold vat_stage.
  rewrite !filter_filter_implied; [reflexivity| |];
    intros r; unfold str_contains; cbn [existsb]; intros Hr;
    apply orb_prop in Hr as [Hr|Hr]; rewrite ?orb_false_r in Hr;
    rewrite Hr, ?orb_true_r; reflexivity.
Qed.

(* ===================================================================== *)
(** * Dates of the parsed records                                         *)
(* ===================================================================== *)

Section DateFacts.
Import Str Strptime.

Lemma in_range_spec (c lo hi : ascii) :
  in_range c lo hi = true ->
  (N_of_ascii lo <= N_of_ascii c <= N_of_ascii hi)%N.
Proof.
  unfold in_range, code. intros H. apply andb_prop in H as [H1 H2].
  apply N.leb_le in H1, H2. split; assumption.
Qed.

Lemma isdigit_spec (c : ascii) :
  isdigit c = true -> 0 <= digit_val c <= 9.
Proof.
  unfold isdigit, digit_val, code. intros H. apply andb_prop in H as [H1 H2].
  apply N.leb_le in H1, H2. lia.
Qed.

Lemma in_range_digit_val (c lo hi : ascii) :
  in_range c lo hi = true ->
  digit_val lo <= digit_val c <= digit_val hi.
Proof.
  intros H. apply in_range_spec in H. unfold digit_val, code. lia.
Qed.

Lemma two_digits_val (a b : ascii) :
  digits_val (String a (String b EmptyString))
  = 10 * digit_val a + digit_val b.
Proof. unfold digits_val. cbn [digits_val_acc]. lia. Qed.

Local Ltac split_bool :=
  repeat match goal with
    | H : in_range _ _ _ = true |- _ => apply in_range_digit_val in H
    | H : isdigit _ = true |- _ => apply isdigit_spec in H
    | H : Ascii.eqb ?x ?y = true |- _ =>
        apply Ascii.eqb_eq in H; try subst x
    | H : andb _ _ = true |- _ =>
        let H1 := fresh H in let H2 := fresh H in
        apply andb_prop in H; destruct H as [H1 H2]
    | H : orb _ _ = true |- _ =>
        apply orb_prop in H; destruct H as [H|H]
    end.

Lemma directive_d_range (t : string) (d : Z) :
  directive_d t = Some d -> 1 <= d <= 31.
Proof.
  destruct t as [|a [|b [|c t]]]; cbn [directive_d]; try discriminate.
  - destruct (in_range a "1" "9") eqn:E; [|discriminate].
    intros H. injection H as <-. split_bool.
    change (digit_val "1") with 1 in *. change (digit_val "9") with 9 in *.
    lia.
  - destruct (_ || _) eqn:E.
    + intros H. injection H as <-. rewrite two_digits_val.
      split_bool;
        change (digit_val "0") with 0 in *; change (digit_val "1") with 1 in *;
        change (digit_val "2") with 2 in *; change (digit_val "3") with 3 in *;
        change (digit_val "9") with 9 in *; lia.
    + destruct (Ascii.eqb a " " && in_range b "1" "9") eqn:E';
        [|discriminate].
      intros H. injection H as <-. split_bool.
      change (digit_val "1") with 1 in *. change (digit_val "9") with 9 in *.
      lia.
Qed.

Lemma directive_m_range (t : string) (m : Z) :
  directive_m t = Some m -> 1 <= m <= 12.
Proof.
  destruct t as [|a [|b [|c t]]]; cbn [directive_m]; try discriminate.
  - destruct (in_range a "1" "9") eqn:E; [|discriminate].
    intros H. injection H as <-. split_bool.
    change (digit_val "1") with 1 in *. change (digit_val "9") with 9 in *.
    lia.
  - destruct (_ || _) eqn:E; [|discriminate].
    intros H. injection H as <-. rewrite two_digits_val.
    split_bool;
      change (digit_val "0") with 0 in *; change (digit_val "1") with 1 in *;
      change (digit_val "2") with 2 in *; change (digit_val "9") with 9 in *;
      lia.
Qed.

Lemma directive_Y_range (t : string) (y : Z) :
  directive_Y t = Some y -> 0 <= y <= 9999.
Proof.
  unfold directive_Y.
  destruct t as [|a [|b [|c [|d [|x t]]]]]; try discriminate.
  cbn [String.length Nat.eqb andb all_digits].
  destruct (isdigit a && (isdigit b && (isdigit c && (isdigit d && true))))
    eqn:E; [|discriminate].
  intros H. injection H as <-. split_bool.
  unfold digits_val. cbn [digits_val_acc]. lia.
Qed.

Lemma strptime_valid (s : string) (d : datetime) :
  strptime s = Some d -> valid_date d = true.
Proof.
  unfold strptime.
  destruct (split_slash s) as [[td r]|]; [|discriminate].
  destruct (split_slash r) as [[tm ty]|]; [|discriminate].
  destruct (directive_d td) as [dd|] eqn:Ed; [|discriminate].
  destruct (directive_m tm) as [mm|] eqn:Em; [|discriminate].
  destruct (directive_Y ty) as [yy|] eqn:Ey; [|discriminate].
  destruct ((1 <=? yy) && (dd <=? days_in_month yy mm)) eqn:E;
    [|discriminate].
  intros H. injection H as <-.
  apply directive_d_range in Ed. apply directive_m_range in Em.
  apply directive_Y_range in Ey. apply andb_prop in E as [E1 E2].
  unfold valid_date. cbn [year month day]. rewrite E1, E2.
  repeat (apply andb_true_intro; split); try reflexivity;
    apply Z.leb_le; lia.
Qed.

End DateFacts.

Lemma pdf_row_dates (headers r : row) (records out : list record) :
  pdf_row headers r records = Ok out ->
  Forall (fun x => valid_date (Date x) = true) records ->
  Forall (fun x => valid_date (Date x) = true) out.
Proof.
  unfold pdf_row. destruct (decide (r = headers));
    [intros E; injection E as <-; trivial|].
  destruct (r !! 0%nat) as [[c|]|]; try discriminate.
  destruct (Strptime.strptime (Str.strip c)) as [dt|] eqn:Ed;
    [|intros E; injection E as <-; trivial].
  destruct (if (3 <? length r)%nat then _ else _); simpl; [|discriminate].
  destruct (if (4 <? length r)%nat then _ else _); simpl; [|discriminate].
  intros E Hrec. injection E as <-.
  apply Forall_app. split; [exact Hrec|].
  apply Forall_singleton. exact (strptime_valid _ _ Ed).
Qed.

Lemma pdf_rows_dates (headers : row) (rows : list row) :
  forall records out,
    pdf_rows headers rows records = Ok out ->
    Forall (fun x => valid_date (Date x) = true) records ->
    Forall (fun x => valid_date (Date x) = true) out.
Proof.
  induction rows as [|r rows IH]; intros records out; simpl.
  - intros E. injection E as <-. trivial.
  - destruct (pdf_row headers r records) as [records'|e] eqn:Er; simpl;
      [|discriminate].
    intros E Hrec. apply (IH records' out E).
    exact (pdf_row_dates _ _ _ _ Er Hrec).
Qed.

(** X21: every record read from a PDF carries a day of the calendar, in
    the years 1 to 9999, read day first: month 1 to 12, day within the
    month, leap years counted. *)
Theorem pdf_pages_dates :
  forall (ps : list (option table)) (out : list record),
    pdf_pages ps [] = Ok out ->
    Forall (fun x => valid_date (Date x) = true) out.
Proof.
  intros ps out.
  assert (forall records,
            pdf_pages ps records = Ok out ->
            Forall (fun x => valid_date (Date x) = true) records ->
            Forall (fun x => valid_date (Date x) = true) out) as Hgen.
  { induction ps as [|t ps IH]; intros records; simpl.
    - intros E. injection E as <-. trivial.
    - destruct (pdf_page t records) as [records'|e] eqn:Et; simpl;
        [|discriminate].
      intros E Hrec. apply (IH records' E).
      destruct t as [[|headers rows]|]; simpl in Et;
        try (injection Et as <-; exact Hrec).
      exact (pdf_rows_dates _ _ _ _ Et Hrec). }
  intros E. apply (Hgen [] E). constructor.
Qed.

Lemma pdf_pages_dates_witness :
  Forall (fun x => valid_date (Date x) = true)
    [mk_record Sample.jan5 (Some "Sale A") (Float.of_Z 1000);
     mk_record Sample.jan6 (Some "Rent") (Float.of_Z (-500))].
Proof.
  apply (pdf_pages_dates
           [Some [Sample.headers; Sample.row_sale;
                  [Some "31/02/2024"; None; Some "No such day"; Some "1"];
                  Sample.row_rent]]).
  vm_compute. reflexivity.
Defined.

(* ===================================================================== *)
(** * From the classified rows to the trial balance                       *)
(* ===================================================================== *)

Section PostedBalance.
Context {num : Type} `{Arith num}.

Lemma posting_of_account (r : LabeledTransaction num) :
  le_Account (posting_of r) = lt_GL_Account r.
Proof. unfold posting_of. destruct (num_ge0 (lt_Amount r)); reflexivity. Qed.

Lemma group_posted (df : list (LabeledTransaction num)) (k : string) :
  group (map posting_of df) k
  = map posting_of (filter (fun r => lt_GL_Account r = k) df).
Proof.
  induction df as [|r df IH]; [reflexivity|].
  cbn [map]. rewrite group_cons, filter_cons, posting_of_account.
  destruct (decide (lt_GL_Account r = k)); cbn [map]; rewrite IH;
    reflexivity.
Qed.

(** The trial-balance row of an account over the posted rows, in terms
    of the rows labeled with exactly this account. *)
Lemma trial_balance_row_posted :
  forall (df : list (LabeledTransaction num)) (account : string),
    trial_balance_row (to_dataframe (post_rows df)) account
    = let rows := filter (fun r => lt_GL_Account r = account) df in
      let debit :=
        num_sum (map (fun r => if num_ge0 (lt_Amount r)
                               then lt_Amount r else num_zero) rows) in
      let credit :=
        num_sum (map (fun r => if num_ge0 (lt_Amount r)
                               then num_zero else num_neg (lt_Amount r)) rows) in
      mk_TrialBalanceRow account debit credit (num_sub debit credit).
Proof.
  intros df account. rewrite post_rows_entries. unfold trial_balance_row.
  rewrite group_posted, !map_map. cbv zeta.
  rewrite (map_ext (fun r => le_Debit (posting_of r))
             (fun r => if num_ge0 (lt_Amount r) then lt_Amount r else num_zero))
    by (intros r; unfold posting_of; destruct (num_ge0 (lt_Amount r));
        reflexivity).
  rewrite (map_ext (fun r => le_Credit (posting_of r))
             (fun r => if num_ge0 (lt_Amount r)
                       then num_zero else num_neg (lt_Amount r)))
    by (intros r; unfold posting_of; destruct (num_ge0 (lt_Amount r));
        reflexivity).
  reflexivity.
Qed.

(** X24: the ledger is append-only: after a posting, the new entry is
    the last one, stored as given whatever its debit and credit are, and
    every earlier entry is found where it was. *)
Theorem post_lookup :
  forall (ledger : Ledger num) (date : datetime) (account : string)
         (debit credit : num) (narrative : cell),
    let ledger' := post ledger date account debit credit narrative in
    length (to_dataframe ledger') = S (length (to_dataframe ledger))
    /\ to_dataframe ledger' !! length (to_dataframe ledger)
       = Some (mk_LedgerEntry date account debit credit narrative)
    /\ forall i : nat,
         (i < length (to_dataframe ledger))%nat ->
         to_dataframe ledger' !! i = to_dataframe ledger !! i.
Proof.
  intros ledger date account debit credit narrative ledger'.
  unfold ledger', to_dataframe. cbn [post entries].
  split; [rewrite length_app; simpl; lia|]. split.
  - rewrite lookup_app_r by lia. rewrite Nat.sub_diag. reflexivity.
  - intros i Hi. apply lookup_app_l, Hi.
Qed.

End PostedBalance.

(** The sum of a group skips the values that are NaN. *)
Lemma group_sum_filter {A} (f : A -> float) (keep : A -> bool) (l : list A) :
  (forall a, keep a = false -> Float.is_nan (f a) = true) ->
  Float.group_sum (map f l) = Float.group_sum (map f (List.filter keep l)).
Proof.
  intros Hnan. unfold Float.group_sum. generalize (Float.zero, Float.zero).
  induction l as [|a l IH]; intros st; [reflexivity|].
  cbn [map List.filter fold_left]. destruct (keep a) eqn:Hk.
  - cbn [map fold_left]. apply IH.
  - unfold Float.group_sum_step at 2. destruct st as [sumx compensation].
    rewrite (Hnan a Hk). apply IH.
Qed.

(** X22: in the trial balance of the posted rows, the Debit of an account
    is the sum of the group (compensated, as pandas takes it), over the
    rows labeled with exactly this account, of the amount where it is
    [>= 0] and of 0.0 elsewhere; its Credit is the sum of the group,
    over those of these rows whose amount is not NaN, of the negated
    amount where the amount is not [>= 0] and of 0.0 elsewhere: a row
    whose amount is NaN is posted as a credit of NaN, which the sum
    skips; and its Balance is the float Debit - Credit. *)
Theorem trial_balance_of_posted_rows :
  forall (df : list (LabeledTransaction float)) (account : string),
    let rows := filter (fun r => lt_GL_Account r = account) df in
    let row := trial_balance_row (to_dataframe (post_rows df)) account in
    tb_Account row = account
    /\ tb_Debit row
       = Float.group_sum
           (map (fun r => if Float.leb Float.zero (lt_Amount r)
                          then lt_Amount r else Float.zero) rows)
    /\ tb_Credit row
       = Float.group_sum
           (map (fun r => if Float.leb Float.zero (lt_Amount r)
                          then Float.zero else Float.neg (lt_Amount r))
                (List.filter (fun r => negb (Float.is_nan (lt_Amount r)))
                             rows))
    /\ tb_Balance row = Float.sub (tb_Debit row) (tb_Credit row).
Proof.
  intros df account rows row. unfold row.
  rewrite trial_balance_row_posted. cbv zeta. fold rows.
  cbn [tb_Account tb_Debit tb_Credit tb_Balance num_sum num_sub num_ge0
       num_zero num_neg float_Arith].
  split; [reflexivity|]. split; [reflexivity|]. split; [|reflexivity].
  apply group_sum_filter. intros r Hr.
  destruct (lt_Amount r); try discriminate Hr. reflexivity.
Qed.

(** A sale of 1000, a refund of 10 and a row without amount (NaN), all
    on Sales: Debit 1000, Credit 10, Balance 990. *)
Example trial_balance_of_posted_rows_nan :
  let df :=
    [mk_LabeledTransaction Sample.jan5 (Some "Sale A") (Float.of_Z 1000) "Sales";
     mk_LabeledTransaction Sample.jan6 None S754_nan "Sales";
     mk_LabeledTransaction Sample.jan6 (Some "Refund") (Float.of_Z (-10))
       "Sales"] in
  trial_balance (post_rows df)
  = Ok [mk_TrialBalanceRow "Sales" (Float.of_Z 1000) (Float.of_Z 10)
          (Float.of_Z 990)].
Proof. vm_compute. reflexivity. Qed.

(** X23: for a PDF that yields records, the returned frame has one row
    per record, in order: the date that [pd.to_datetime] gives for the
    record, then its description and its amount, unchanged. *)
Theorem pdf_frame_rows :
  forall (to_datetime : list value -> result (list value))
         (f : UploadedFile) (records : list record) (dates : list value),
    is_pdf (name f) = true ->
    pdf_pages (pages f) [] = Ok records ->
    records <> [] ->
    to_datetime (map (fun r => VDate (Date r)) records) = Ok dates ->
    parse_bank_statement to_datetime f
    = Ok (mk_DataFrame ["Date"; "Description"; "Amount"]
            (zip_with
               (fun d r => [d; value_of_cell (Description r); VFloat (Amount r)])
               dates records)).
Proof.
  intros to_datetime f records dates Hpdf Hrec Hne Hd.
  unfold parse_bank_statement. rewrite Hpdf, Hrec. cbn [bind].
  destruct records as [|rec records]; [congruence|].
  rewrite canonical_frame_records, Hd. reflexivity.
Qed.

Lemma pdf_frame_rows_witness :
  parse_bank_statement Sample.keep_dates
    (Sample.statement [Sample.row_sale; Sample.row_rent])
  = Ok (mk_DataFrame ["Date"; "Description"; "Amount"]
          [[VDate Sample.jan5; VStr "Sale A"; VFloat (Float.of_Z 1000)];
           [VDate Sample.jan6; VStr "Rent"; VFloat (Float.of_Z (-500))]]).
Proof.
  apply (pdf_frame_rows Sample.keep_dates
           (Sample.statement [Sample.row_sale; Sample.row_rent])
           [mk_record Sample.jan5 (Some "Sale A") (Float.of_Z 1000);
            mk_record Sample.jan6 (Some "Rent") (Float.of_Z (-500))]
           [VDate Sample.jan5; VDate Sample.jan6]);
    try discriminate; vm_compute; reflexivity.
Defined.

Lemma parse_bank_statement_unparsable_date_witness :
  parse_bank_statement Sample.keep_dates
    (mk_UploadedFile "statement.pdf"
       ([None]
          ++ Some (Sample.headers
                     :: [Sample.row_sale]
                     ++ Sample.row_bad_date :: [Sample.row_rent])
          :: [])
       Sample.no_sheet)
  = parse_bank_statement Sample.keep_dates
      (mk_UploadedFile "statement.pdf"
         ([None]
            ++ Some (Sample.headers :: [Sample.row_sale] ++ [Sample.row_rent])
            :: [])
         Sample.no_sheet).
Proof.
  apply (parse_bank_statement_unparsable_date Sample.keep_dates
           "statement.pdf" [None] [] Sample.headers Sample.row_bad_date
           "2024-01-05" [Sample.row_sale] [Sample.row_rent] Sample.no_sheet);
    reflexivity.
Defined.
